(** * Verification of the note model of mowndark (backend/models/note.py,
    backend/models/user.py, backend/routes/notes.py).

    Python values are embedded as follows: [None] is [None], a string is a
    Rocq [string] (ASCII), a MongoDB document is a record, and a collection
    is the list of its documents in natural order ([find_one] returns the
    first match). *)

From Stdlib Require Import String Ascii List Bool Arith Lia Sorted NArith ZArith.
Import ListNotations.
Open Scope string_scope.
Open Scope list_scope.
Open Scope nat_scope.

(* ------------------------------------------------------------------ *)
(** ** Python helpers *)

(** Truthiness of an optional string ([not x] is true for [None] and [""]). *)
Definition truthy (x : option string) : bool :=
  match x with
  | None => false
  | Some s => negb (String.eqb s "")
  end.

(** [x is not None] *)
Definition is_not_none {A} (x : option A) : bool :=
  match x with None => false | Some _ => true end.

(** [==] on two optional strings ([None == None] is true). *)
Definition opt_str_eqb (x y : option string) : bool :=
  match x, y with
  | None, None => true
  | Some a, Some b => String.eqb a b
  | _, _ => false
  end.

(** A JSON value, as [json.loads] or BSON gives it to Python: [None], a
    boolean, a number (integers suffice: the code only tests numbers for
    truth, and every non-zero number behaves alike), a string, a list, or
    a dict (an association list with distinct keys). *)
#[warnings="-register-all"]
Inductive jvalue :=
  | JNull
  | JBool (b : bool)
  | JNum (z : Z)
  | JStr (s : string)
  | JArr (elems : list jvalue)
  | JObj (fields : list (string * jvalue)).

(** [v == s] for a string [s]. *)
Definition jeqb_str (v : jvalue) (s : string) : bool :=
  match v with JStr t => String.eqb t s | _ => false end.

(* ------------------------------------------------------------------ *)
(** ** The note document *)

(** The MongoDB document built by [Note.create]; [_id] is the canonical
    (lower-case, 24 hex digit) text of its ObjectId.  [permission] is
    [None] when the key is missing from the document; otherwise it is the
    stored value, which [PUT] may set to any JSON value ([null], an array,
    ...). *)
Record note := mk_note {
  _id : string;
  shortid : string;
  alias : option string;
  title : string;
  content : string;
  owner_id : option string;
  permission : option jvalue;
  view_count : nat;
  last_change_user_id : option string
}.

(** [note.get('permission', 'private')] *)
Definition get_permission (n : note) : jvalue :=
  match permission n with Some p => p | None => JStr "private" end.

(** [Note.is_owner(note, user_id)]; an absent note is [None]. *)
Definition is_owner (note : option note) (user_id : option string) : bool :=
  if negb (truthy user_id) then false
  else match note with
       | None => false
       | Some n => opt_str_eqb (owner_id n) user_id
       end.

(** [Note.can_view(note, user_id)] *)
Definition can_view (note : option note) (user_id : option string) : bool :=
  match note with
  | None => false
  | Some n =>
      let p := get_permission n in
      if jeqb_str p "private" then is_owner note user_id
      else if jeqb_str p "limited" then is_owner note user_id
      else if jeqb_str p "locked" then is_not_none user_id
      else true
  end.

(** [Note.can_edit(note, user_id)] *)
Definition can_edit (note : option note) (user_id : option string) : bool :=
  match note with
  | None => false
  | Some n =>
      let p := get_permission n in
      if jeqb_str p "freely" then true
      else if jeqb_str p "editable" then is_not_none user_id
      else if existsb (jeqb_str p) ["private"; "locked"; "protected"; "limited"]
      then is_owner note user_id
      else false
  end.

(** The six documented permission levels. *)
Inductive level := Freely | Editable | Limited | Locked | Protected | Private.

Definition level_name (l : level) : string :=
  match l with
  | Freely => "freely" | Editable => "editable" | Limited => "limited"
  | Locked => "locked" | Protected => "protected" | Private => "private"
  end.

Definition level_names : list string :=
  ["freely"; "editable"; "limited"; "locked"; "protected"; "private"].

(** The table of the spec (section 4.1), written from its words:
    [(viewable, editable)] for an actor that is signed in or not and is
    the owner or not. *)
Definition spec_table (l : level) (signed_in owner : bool) : bool * bool :=
  match l with
  | Freely => (true, true)
  | Editable => (true, signed_in)
  | Limited => (owner, owner)
  | Locked => (signed_in, owner)
  | Protected => (true, owner)
  | Private => (owner, owner)
  end.

(** The spec's notion of ownership: the actor is present and equals the
    note's owner. *)
Definition spec_owner (n : note) (user_id : option string) : bool :=
  is_not_none user_id && opt_str_eqb (owner_id n) user_id.

(* ------------------------------------------------------------------ *)
(** ** Note resolution ([Note.find_by_*], [Note.find_by_id_or_shortid]) *)

Definition is_hex (c : ascii) : bool :=
  let n := nat_of_ascii c in
  ((48 <=? n) && (n <=? 57)) || ((97 <=? n) && (n <=? 102))
  || ((65 <=? n) && (n <=? 70)).

Definition lower (c : ascii) : ascii :=
  let n := nat_of_ascii c in
  if (65 <=? n) && (n <=? 90) then ascii_of_nat (n + 32) else c.

Definition lower_string (s : string) : string :=
  string_of_list_ascii (map lower (list_ascii_of_string s)).

(** [ObjectId(note_id)]: a string of length 24 made of hex digits gives the
    ObjectId (written here as its canonical lower-case text); anything else
    raises [InvalidId], which [find_by_id] turns into [None].  (A length-24
    string with spaces between byte pairs is accepted by [bytes.fromhex]
    but yields an 11-byte id that matches no document; it is folded into
    the [None] case as well.) *)
Definition object_id (s : string) : option string :=
  if (String.length s =? 24) && forallb is_hex (list_ascii_of_string s)
  then Some (lower_string s) else None.

(** [collection.find_one(query)]: the first document in natural order. *)
Definition find_one (q : note -> bool) (store : list note) : option note :=
  find q store.

(** [Note.find_by_id] *)
Definition find_by_id (store : list note) (note_id : string) : option note :=
  match object_id note_id with
  | Some oid => find_one (fun n => String.eqb (_id n) oid) store
  | None => None
  end.

(** [Note.find_by_shortid] *)
Definition find_by_shortid (store : list note) (sid : string) : option note :=
  find_one (fun n => String.eqb (shortid n) sid) store.

(** [Note.find_by_alias]: [{'alias': a}] with a string never matches a
    document whose alias is null. *)
Definition find_by_alias (store : list note) (a : string) : option note :=
  find_one (fun n => opt_str_eqb (alias n) (Some a)) store.

(** [Note.find_by_id_or_shortid] *)
Definition find_by_id_or_shortid (store : list note) (note_id : string)
  : option note :=
  match find_by_shortid store note_id with
  | Some n => Some n
  | None =>
      match find_by_alias store note_id with
      | Some n => Some n
      | None => find_by_id store note_id
      end
  end.

(** HTTP outcome of the note routes. *)
Inductive response :=
  | NotFound                 (* 404 *)
  | Forbidden                (* 403 *)
  | NoteOk (n : note).       (* 200, [Note.to_json(note)] *)

(** [Note.increment_view_count(note_id)]: [$inc] on the document with that id. *)
Definition increment_view_count (store : list note) (oid : string) : list note :=
  map (fun n => if String.eqb (_id n) oid
                then {| _id := _id n; shortid := shortid n; alias := alias n;
                        title := title n; content := content n;
                        owner_id := owner_id n; permission := permission n;
                        view_count := S (view_count n);
                        last_change_user_id := last_change_user_id n |}
                else n) store.

(** Route [GET /s/<shortid>] ([get_published_note]); returns the response
    and the collection afterwards. *)
Definition get_published_note (store : list note) (user_id : option string)
  (sid : string) : response * list note :=
  let note := match find_by_shortid store sid with
              | Some n => Some n
              | None => find_by_alias store sid
              end in
  match note with
  | None => (NotFound, store)
  | Some n =>
      if negb (can_view (Some n) user_id) then (Forbidden, store)
      else (NoteOk n, increment_view_count store (_id n))
  end.

(* ------------------------------------------------------------------ *)
(** ** Note creation ([Note.create]) *)

(** [Note.create(owner_id, title, content, permission, alias)].  The
    generated short id and the outcome of [insert_one] (the inserted id, or
    [None] when the insert raised) are inputs of the model. *)
Definition create (sid : string) (inserted : option string)
  (owner_id0 : option string) (title0 content0 permission0 : string)
  (alias0 : option string) : option note :=
  let content1 := if String.eqb content0 ""
                  then ("# " ++ title0 ++ String (ascii_of_nat 10)
                          (String (ascii_of_nat 10)
                             "Start writing your markdown here..."))%string
                  else content0 in
  match inserted with
  | None => None
  | Some oid =>
      Some {| _id := oid; shortid := sid; alias := alias0; title := title0;
              content := content1; owner_id := owner_id0;
              permission := Some (JStr (if truthy owner_id0 then permission0
                                        else "freely"));
              view_count := 0; last_change_user_id := owner_id0 |}
  end.

(* ------------------------------------------------------------------ *)
(** ** Access history ([User.add_to_history]) *)

(** A history entry [{'note_id': ..., 'accessed_at': ...}]; the timestamp
    is a natural number (the value of [datetime.utcnow()]). *)
Record history_entry := mk_entry { entry_note_id : string; accessed_at : nat }.

(** [User.add_to_history(user_id, note_id)] at time [now]: [$pull] every
    entry with that note id, then [$push] the new entry at position 0 with
    [$slice: 100]. *)
Definition add_to_history (history : list history_entry) (note_id : string)
  (now : nat) : list history_entry :=
  let pulled := filter (fun e => negb (String.eqb (entry_note_id e) note_id))
                       history in
  firstn 100 (mk_entry note_id now :: pulled).

(** A sequence of [add_to_history] calls, oldest first. *)
Definition run_history (history : list history_entry)
  (ops : list (string * nat)) : list history_entry :=
  fold_left (fun h op => add_to_history h (fst op) (snd op)) ops history.

(** Most-recent-first order of two entries. *)
Definition recent_first (a b : history_entry) : Prop := accessed_at b <= accessed_at a.

(** The documented shape of a history: one entry per note id, at most 100
    entries, most recent first. *)
Definition history_ok (h : list history_entry) : Prop :=
  NoDup (map entry_note_id h) /\ length h <= 100 /\ Sorted recent_first h.

(** The clock never goes back: every call happens at a time no earlier
    than [t0] and than the calls before it. *)
Fixpoint times_from (t0 : nat) (ops : list (string * nat)) : Prop :=
  match ops with
  | [] => True
  | (_, t) :: rest => t0 <= t /\ times_from t rest
  end.

(* ------------------------------------------------------------------ *)
(** ** Description ([Note.generate_description]) *)

(** Text is handled as a list of characters (code points 0..255). *)
Definition chr (n : nat) : ascii := ascii_of_nat n.
Definition is_char (n : nat) (c : ascii) : bool := nat_of_ascii c =? n.

(** [str.isspace] / regex [\s] on code points 0..255. *)
Definition is_space (c : ascii) : bool :=
  let n := nat_of_ascii c in
  (n =? 32) || ((9 <=? n) && (n <=? 13)) || ((28 <=? n) && (n <=? 31))
  || (n =? 133) || (n =? 160).

Definition NL := 10.       (* '\n' *)
Definition HASH := 35.     (* '#' *)
Definition STAR := 42.     (* '*' *)
Definition UNDER := 95.    (* '_' *)
Definition BTICK := 96.    (* '`' *)
Definition LBRACK := 91.   (* '[' *)
Definition RBRACK := 93.   (* ']' *)
Definition LPAREN := 40.   (* '(' *)
Definition RPAREN := 41.   (* ')' *)
Definition BANG := 33.     (* '!' *)
Definition SPACE := 32.    (* ' ' *)

(** The longest prefix whose characters satisfy [p], and the rest. *)
Fixpoint span (p : ascii -> bool) (s : list ascii) : list ascii * list ascii :=
  match s with
  | [] => ([], [])
  | c :: r => if p c then let (a, b) := span p r in (c :: a, b) else ([], s)
  end.

Definition starts_with_char (n : nat) (s : list ascii) : bool :=
  match s with c :: _ => is_char n c | [] => false end.

Definition nonempty {A} (l : list A) : bool :=
  match l with [] => false | _ => true end.

(** [re.sub(r'^#+\s+', '', text, flags=re.MULTILINE)]; [bol] says that
    the previous character of the input is a newline (or there is none).
    [\s+] is greedy and may run over newlines. *)
Fixpoint sub_headings (fuel : nat) (bol : bool) (s : list ascii) : list ascii :=
  match fuel with
  | 0 => s
  | S f =>
      match s with
      | [] => []
      | c :: r =>
          let (hs, r1) := span (is_char HASH) s in
          let (ws, r2) := span is_space r1 in
          if bol && nonempty hs && nonempty ws
          then sub_headings f (is_char NL (last ws c)) r2
          else c :: sub_headings f (is_char NL c) r
      end
  end.

(** [re.sub(r'\[([^\]]+)\]\([^\)]+\)', r'\1', text)] *)
Fixpoint sub_links (fuel : nat) (s : list ascii) : list ascii :=
  match fuel with
  | 0 => s
  | S f =>
      match s with
      | [] => []
      | c :: r =>
          let (a, r1) := span (fun x => negb (is_char RBRACK x)) r in
          match r1 with
          | x :: y :: r2 =>
              let (b, r3) := span (fun z => negb (is_char RPAREN z)) r2 in
              if is_char LBRACK c && nonempty a && is_char RBRACK x
                 && is_char LPAREN y && nonempty b && starts_with_char RPAREN r3
              then a ++ sub_links f (tl r3)
              else c :: sub_links f r
          | _ => c :: sub_links f r
          end
      end
  end.

(** [re.sub] of the image pattern ([!], [\[], a possibly empty run of
    non-[\]] characters, [\]], [(], a non-empty run of non-[)] characters,
    [)]) by the empty string. *)
Fixpoint sub_images (fuel : nat) (s : list ascii) : list ascii :=
  match fuel with
  | 0 => s
  | S f =>
      match s with
      | [] => []
      | c :: r =>
          match r with
          | c1 :: r0 =>
              let (a, r1) := span (fun x => negb (is_char RBRACK x)) r0 in
              match r1 with
              | x :: y :: r2 =>
                  let (b, r3) := span (fun z => negb (is_char RPAREN z)) r2 in
                  if is_char BANG c && is_char LBRACK c1 && is_char RBRACK x
                     && is_char LPAREN y && nonempty b
                     && starts_with_char RPAREN r3
                  then sub_images f (tl r3)
                  else c :: sub_images f r
              | _ => c :: sub_images f r
              end
          | [] => [c]
          end
      end
  end.

(** [re.sub(r'\*+([^\*]+)\*+', r'\1', text)] and the same with [_]: a run
    of markers, a non-empty run of other characters, then a run of
    markers (both runs greedy). *)
Fixpoint sub_emphasis (m : nat) (fuel : nat) (s : list ascii) : list ascii :=
  match fuel with
  | 0 => s
  | S f =>
      match s with
      | [] => []
      | c :: r =>
          let (_, r1) := span (is_char m) s in
          let (a, r2) := span (fun x => negb (is_char m x)) r1 in
          let (ms, r3) := span (is_char m) r2 in
          if is_char m c && nonempty a && nonempty ms
          then a ++ sub_emphasis m f r3
          else c :: sub_emphasis m f r
      end
  end.

Definition three_ticks (s : list ascii) : bool :=
  match s with
  | a :: b :: c :: _ => is_char BTICK a && is_char BTICK b && is_char BTICK c
  | _ => false
  end.

(** [re.sub(r'```[^`]*```', '', text, flags=re.DOTALL)] *)
Fixpoint sub_fences (fuel : nat) (s : list ascii) : list ascii :=
  match fuel with
  | 0 => s
  | S f =>
      match s with
      | [] => []
      | c :: r =>
          let (_, r1) := span (fun x => negb (is_char BTICK x)) (skipn 3 s) in
          if three_ticks s && three_ticks r1
          then sub_fences f (skipn 3 r1)
          else c :: sub_fences f r
      end
  end.

(** [re.sub(r'`[^`]+`', '', text)] *)
Fixpoint sub_code (fuel : nat) (s : list ascii) : list ascii :=
  match fuel with
  | 0 => s
  | S f =>
      match s with
      | [] => []
      | c :: r =>
          let (a, r1) := span (fun x => negb (is_char BTICK x)) r in
          if is_char BTICK c && nonempty a && starts_with_char BTICK r1
          then sub_code f (tl r1)
          else c :: sub_code f r
      end
  end.

(** [text.split()]: maximal runs of non-whitespace characters. *)
Fixpoint split_ws_acc (s : list ascii) (cur : list ascii) : list (list ascii) :=
  match s with
  | [] => if nonempty cur then [rev cur] else []
  | c :: r =>
      if is_space c
      then if nonempty cur then rev cur :: split_ws_acc r [] else split_ws_acc r []
      else split_ws_acc r (c :: cur)
  end.

Definition split_ws (s : list ascii) : list (list ascii) := split_ws_acc s [].

(** [' '.join(words)] *)
Fixpoint join_space (ws : list (list ascii)) : list ascii :=
  match ws with
  | [] => []
  | [w] => w
  | w :: rest => w ++ chr SPACE :: join_space rest
  end.

(** [s.rsplit(' ', 1)[0]]: everything before the last space, or [s] when
    it has none. *)
Definition rsplit_head (s : list ascii) : list ascii :=
  match span (fun x => negb (is_char SPACE x)) (rev s) with
  | (_, []) => s
  | (_, _ :: before) => rev before
  end.

Definition run (f : nat -> list ascii -> list ascii) (s : list ascii) :=
  f (S (length s)) s.

(** The text of [generate_description] before truncation: markdown removed
    by the six substitutions in the source order, whitespace collapsed. *)
Definition description_text (content : string) : list ascii :=
  let t := list_ascii_of_string content in
  let t := sub_headings (S (length t)) true t in
  let t := run sub_links t in
  let t := run sub_images t in
  let t := run (sub_emphasis STAR) t in
  let t := run (sub_emphasis UNDER) t in
  let t := run sub_fences t in
  let t := run sub_code t in
  join_space (split_ws t).

Definition ellipsis : list ascii := [chr 46; chr 46; chr 46].

(** [Note.generate_description(content, max_length)] *)
Definition generate_description (content : string) (max_length : nat) : string :=
  let t := description_text content in
  string_of_list_ascii
    (if max_length <? length t
     then rsplit_head (firstn max_length t) ++ ellipsis
     else t).

(* ------------------------------------------------------------------ *)
(** ** Rendering ([Note.render_html]) *)

(** The HTML produced by [markdown.markdown] is read by bleach as a stream
    of html5lib tokens (names already lower-cased by the tokenizer). *)
Inductive token :=
  | StartTag (name : string) (attrs : list (string * string))
  | EmptyTag (name : string) (attrs : list (string * string))
  | EndTag (name : string)
  | Characters (s : string)
  | Comment (s : string).

(** [bleach.ALLOWED_TAGS] *)
Definition bleach_ALLOWED_TAGS : list string :=
  ["a"; "abbr"; "acronym"; "b"; "blockquote"; "code"; "em"; "i"; "li";
   "ol"; "strong"; "ul"].

(** [allowed_tags] of [render_html]: [bleach.ALLOWED_TAGS | {...}] *)
Definition allowed_tags : list string :=
  bleach_ALLOWED_TAGS ++
  ["p"; "pre"; "code"; "h1"; "h2"; "h3"; "h4"; "h5"; "h6";
   "table"; "thead"; "tbody"; "tr"; "th"; "td";
   "ul"; "ol"; "li"; "blockquote"; "hr"; "br";
   "img"; "div"; "span"].

(** [allowed_attrs] of [render_html]: [bleach.ALLOWED_ATTRIBUTES] (entries
    for [a], [abbr], [acronym]) updated with the entries of the source. *)
Definition allowed_attrs (tag : string) : list string :=
  if String.eqb tag "img" then ["src"; "alt"; "title"]
  else if String.eqb tag "a" then ["href"; "title"; "target"]
  else if String.eqb tag "code" then ["class"]
  else if String.eqb tag "pre" then ["class"]
  else if String.eqb tag "div" then ["class"]
  else if String.eqb tag "span" then ["class"]
  else if String.eqb tag "abbr" then ["title"]
  else if String.eqb tag "acronym" then ["title"]
  else [].

Definition mem (x : string) (l : list string) : bool := existsb (String.eqb x) l.

(** bleach's [attr_val_is_uri] (the URI-valued attribute names). *)
Definition uri_attrs : list string :=
  ["href"; "src"; "cite"; "action"; "longdesc"; "poster"; "background";
   "datasrc"; "dynsrc"; "lowsrc"; "ping"; "formaction"; "xlink:href";
   "xml:base"].

(** bleach's [ALLOWED_PROTOCOLS] *)
Definition allowed_protocols : list string := ["http"; "https"; "mailto"].

Definition is_scheme_char (c : ascii) : bool :=
  let n := nat_of_ascii c in
  ((97 <=? n) && (n <=? 122)) || ((48 <=? n) && (n <=? 57))
  || (n =? 43) || (n =? 45) || (n =? 46).

(** The scheme of a URI value after bleach's normalisation (control
    characters and whitespace removed, lower-cased): the text before the
    first [:] when it is a well-formed scheme. *)
Definition uri_scheme (v : string) : option string :=
  let cs := map lower (filter (fun c => negb (is_space c)
                                         && (32 <=? nat_of_ascii c))
                              (list_ascii_of_string v)) in
  match span (fun c => negb (is_char 58 c)) cs with
  | (sch, _ :: _) =>
      match sch with
      | c :: _ => if is_scheme_char c && negb (is_char 43 c)
                     && forallb is_scheme_char sch
                  then Some (string_of_list_ascii sch) else None
      | [] => None
      end
  | (_, []) => None
  end.

(** [sanitize_uri_value]: a URI with a scheme is kept only for an allowed
    protocol; a relative URI is kept. *)
Definition uri_ok (v : string) : bool :=
  match uri_scheme v with
  | Some sch => mem sch allowed_protocols
  | None => true
  end.

(** [BleachSanitizerFilter.allow_token]: the attributes kept on an
    allowed tag. *)
Definition allow_attrs (attributes : string -> list string) (tag : string)
  (attrs : list (string * string)) : list (string * string) :=
  filter (fun kv => mem (fst kv) (attributes tag)
                    && (negb (mem (fst kv) uri_attrs) || uri_ok (snd kv)))
         attrs.

(** bleach's tokenizer ([BleachHTMLTokenizer]) reads each tag of the
    markdown output together with its source text ([stream.get_tag()]):
    the markdown stage is taken to yield html5lib tokens paired with the
    text they were read from. *)
Definition src_token : Type := token * string.

(** [bleach.clean(html, tags, attributes, strip, strip_comments=True)],
    token by token.  A tag outside [tags] is dropped when [strip] holds;
    otherwise [BleachHTMLTokenizer.emitCurrentToken] replaces it by a
    [Characters] token holding its source text, unchanged. *)
Definition clean_token (tags : list string) (attributes : string -> list string)
  (strip : bool) (ts : src_token) : list token :=
  let (t, src) := ts in
  match t with
  | StartTag nm attrs =>
      if mem nm tags then [StartTag nm (allow_attrs attributes nm attrs)]
      else if strip then [] else [Characters src]
  | EmptyTag nm attrs =>
      if mem nm tags then [EmptyTag nm (allow_attrs attributes nm attrs)]
      else if strip then [] else [Characters src]
  | EndTag nm =>
      if mem nm tags then [EndTag nm]
      else if strip then [] else [Characters src]
  | Characters s => [Characters s]
  | Comment _ => []
  end.

Definition clean (tags : list string) (attributes : string -> list string)
  (strip : bool) (ts : list src_token) : list token :=
  flat_map (clean_token tags attributes strip) ts.

(** Serialisation ([BleachHTMLSerializer], html5lib's [HTMLSerializer]
    with [quote_attr_values="always"] and [escape_lt_in_attrs=True]): text
    escapes [&], [<], [>].  (bleach leaves character entities that are
    already in the text as they are; the tokens here hold decoded text.) *)
Definition escape_char (c : ascii) : string :=
  let n := nat_of_ascii c in
  if n =? 38 then "&amp;"
  else if n =? 60 then "&lt;"
  else if n =? 62 then "&gt;"
  else String c "".

Definition escape (s : string) : string :=
  String.concat "" (map escape_char (list_ascii_of_string s)).

(** The quote of an attribute value ([use_best_quote_char]): a single
    quote when the value holds a double quote and no single quote, a
    double quote otherwise. *)
Definition attr_quote (v : string) : ascii :=
  let cs := list_ascii_of_string v in
  if existsb (is_char 34) cs && negb (existsb (is_char 39) cs) then chr 39 else chr 34.

(** An attribute value: [&] and [<] escaped, then the chosen quote
    ([&#39;] or [&quot;]). *)
Definition escape_attr_char (q c : ascii) : string :=
  let n := nat_of_ascii c in
  if n =? 38 then "&amp;"
  else if n =? 60 then "&lt;"
  else if Ascii.eqb c q then (if n =? 39 then "&#39;" else "&quot;")
  else String c "".

Definition escape_attr (v : string) : string :=
  String.concat "" (map (escape_attr_char (attr_quote v)) (list_ascii_of_string v)).

Fixpoint serialize_attrs (attrs : list (string * string)) : string :=
  match attrs with
  | [] => ""
  | (k, v) :: r =>
      " " ++ k ++ "=" ++ String (attr_quote v)
        (escape_attr v ++ String (attr_quote v) (serialize_attrs r))
  end.

Definition serialize_token (t : token) : string :=
  match t with
  | StartTag nm attrs | EmptyTag nm attrs => "<" ++ nm ++ serialize_attrs attrs ++ ">"
  | EndTag nm => "</" ++ nm ++ ">"
  | Characters s => escape s
  | Comment s => "<!--" ++ s ++ "-->"
  end.

Definition serialize (ts : list token) : string :=
  String.concat "" (map serialize_token ts).

(** [Note.render_html(content)].  The markdown library (with its
    extensions) and html5lib's tokenizer are external: [markdown_tokens]
    stands for whatever token stream they produce. *)
Definition render_tokens (markdown_tokens : string -> list src_token)
  (content : string) : list token :=
  clean allowed_tags allowed_attrs false (markdown_tokens content).

Definition render_html (markdown_tokens : string -> list src_token)
  (content : string) : string :=
  serialize (render_tokens markdown_tokens content).

(** The tag name of a token, if it is a tag. *)
Definition tag_name (t : token) : option string :=
  match t with
  | StartTag nm _ | EmptyTag nm _ | EndTag nm => Some nm
  | Characters _ | Comment _ => None
  end.

Definition token_attrs (t : token) : list (string * string) :=
  match t with
  | StartTag _ attrs | EmptyTag _ attrs => attrs
  | _ => []
  end.

(** Inline event-handler attributes ([onerror], [onclick], ...). *)
Definition is_event_handler (k : string) : bool := String.prefix "on" (lower_string k).

(** The input of the two adversarial examples of the spec and the html5lib
    tokens of what [markdown.markdown] makes of them: [script] is a
    block-level element, so the line is a raw HTML block passed through
    verbatim; [img] is inline, so the line becomes a paragraph holding the
    raw tag (a void element, hence an empty tag). *)
Definition script_input : string := "<script>alert(1)</script>".
Definition script_tokens : list src_token :=
  [(StartTag "script" [], "<script>"); (Characters "alert(1)", "alert(1)");
   (EndTag "script", "</script>")].
Definition img_input : string := "<img src=x onerror=alert(1)>".
Definition img_tokens : list src_token :=
  [(StartTag "p" [], "<p>");
   (EmptyTag "img" [("src", "x"); ("onerror", "alert(1)")], img_input);
   (EndTag "p", "</p>")].

(** The markdown stage on these two inputs (any other text is taken as a
    single run of characters). *)
Definition markdown_examples (content : string) : list src_token :=
  if String.eqb content script_input then script_tokens
  else if String.eqb content img_input then img_tokens
  else [(Characters content, content)].

(** The markdown stage keeps a raw HTML block as written: an upper-case
    tag with an unquoted attribute. *)
Definition raw_script_input : string := "<SCRIPT src=x>alert(1)</SCRIPT>".
Definition raw_script_tokens : list src_token :=
  [(StartTag "script" [("src", "x")], "<SCRIPT src=x>");
   (Characters "alert(1)", "alert(1)"); (EndTag "script", "</SCRIPT>")].

(* ------------------------------------------------------------------ *)
(** ** Note update, view and deletion ([Note.update], [Note.delete],
    routes [get_note], [update_note], [delete_note]) *)

(** [s.split('\n')] *)
Fixpoint split_on (sep : nat) (s : list ascii) : list (list ascii) :=
  match s with
  | [] => [[]]
  | c :: r =>
      if is_char sep c then [] :: split_on sep r
      else match split_on sep r with
           | [] => [[c]]
           | w :: ws => (c :: w) :: ws
           end
  end.

(** [line.startswith('# ')] *)
Definition starts_hash_space (l : list ascii) : bool :=
  match l with
  | a :: b :: _ => is_char HASH a && is_char SPACE b
  | _ => false
  end.

Fixpoint drop_space (s : list ascii) : list ascii :=
  match s with
  | c :: r => if is_space c then drop_space r else s
  | [] => []
  end.

(** [s.strip()] *)
Definition py_strip (s : list ascii) : list ascii := rev (drop_space (rev (drop_space s))).

(** The title [Note.update] reads from new content: the first line that
    starts with ["# "], without those two characters, stripped. *)
Definition derive_title (content : string) : option string :=
  match find starts_hash_space (split_on NL (list_ascii_of_string content)) with
  | Some l => Some (string_of_list_ascii (py_strip (skipn 2 l)))
  | None => None
  end.

(** The fields an [update_data] dict may hold (key present = [Some]); an
    alias may be set to null. *)
Record note_update := mk_update {
  set_title : option string;
  set_content : option string;
  set_permission : option jvalue;
  set_alias : option (option string)
}.

(** The [title] entry of [update_data] once [Note.update] has filled it in. *)
Definition update_data_title (upd : note_update) : option string :=
  match set_title upd with
  | Some t => Some t
  | None => match set_content upd with
            | Some c => derive_title c
            | None => None
            end
  end.

Definition or_else {A} (x : option A) (d : A) : A :=
  match x with Some v => v | None => d end.

(** [$set] of [update_data] on a document ([last_change_user_id] is in
    [update_data] only when [user_id] is truthy). *)
Definition apply_update (n : note) (upd : note_update) (user_id : option string) : note :=
  {| _id := _id n; shortid := shortid n;
     alias := or_else (set_alias upd) (alias n);
     title := or_else (update_data_title upd) (title n);
     content := or_else (set_content upd) (content n);
     owner_id := owner_id n;
     permission := match set_permission upd with
                   | Some p => Some p
                   | None => permission n
                   end;
     view_count := view_count n;
     last_change_user_id := if truthy user_id then user_id
                            else last_change_user_id n |}.

(** The first document satisfying [q], transformed by [f]. *)
Fixpoint replace_first (q : note -> bool) (f : note -> note) (store : list note)
  : list note :=
  match store with
  | [] => []
  | m :: rest => if q m then f m :: rest else m :: replace_first q f rest
  end.

(** [Note.update(note_id, update_data, user_id)]; every caller passes
    [note['_id']], an ObjectId, so [ObjectId(note_id)] is that id.
    [find_one_and_update] with [return_document=True] returns the updated
    document, or [None] when no document has the id. *)
Definition update (store : list note) (oid : string) (upd : note_update)
  (user_id : option string) : option note * list note :=
  match find_one (fun n => String.eqb (_id n) oid) store with
  | None => (None, store)
  | Some n =>
      (Some (apply_update n upd user_id),
       replace_first (fun m => String.eqb (_id m) oid)
                     (fun m => apply_update m upd user_id) store)
  end.

(** The JSON body of [PUT /<note_id>] (key present = [Some]). *)
Record note_request := mk_request {
  req_title : option string;
  req_content : option string;
  req_permission : option jvalue;
  req_alias : option (option string)
}.

(** Route [PUT /<note_id>] ([update_note]): status code, updated note,
    collection afterwards. *)
Definition update_note (store : list note) (user_id : option string) (ref : string)
  (data : note_request) : nat * option note * list note :=
  match find_by_id_or_shortid store ref with
  | None => (404, None, store)
  | Some n =>
      if negb (can_edit (Some n) user_id) then (403, None, store)
      else
        let owner := is_owner (Some n) user_id in
        let upd := mk_update (req_title data) (req_content data)
                     (if owner then req_permission data else None)
                     (if owner then req_alias data else None) in
        match update store (_id n) upd user_id with
        | (None, _) => (500, None, store)
        | (Some n', store') => (200, Some n', store')
        end
  end.

(** Route [GET /<note_id>] ([get_note]). *)
Definition get_note (store : list note) (user_id : option string) (ref : string)
  : response * list note :=
  match find_by_id_or_shortid store ref with
  | None => (NotFound, store)
  | Some n =>
      if negb (can_view (Some n) user_id) then (Forbidden, store)
      else (NoteOk n, increment_view_count store (_id n))
  end.

(** [collection.delete_one(query)]: the first match is removed. *)
Fixpoint remove_first (q : note -> bool) (store : list note) : list note :=
  match store with
  | [] => []
  | m :: rest => if q m then rest else m :: remove_first q rest
  end.

(** [Note.delete(note_id)] with [note_id] an ObjectId: whether a document
    was deleted, and the collection afterwards. *)
Definition delete (store : list note) (oid : string) : bool * list note :=
  if existsb (fun n => String.eqb (_id n) oid) store
  then (true, remove_first (fun n => String.eqb (_id n) oid) store)
  else (false, store).

(** Route [DELETE /<note_id>] ([delete_note]); [jwt_required], so the
    caller's id is a string. *)
Definition delete_note (store : list note) (user_id : string) (ref : string)
  : nat * list note :=
  match find_by_id_or_shortid store ref with
  | None => (404, store)
  | Some n =>
      if negb (is_owner (Some n) (Some user_id)) then (403, store)
      else match delete store (_id n) with
           | (true, store') => (200, store')
           | (false, _) => (500, store)
           end
  end.

(** [Note.delete_by_owner(owner_id)]: [delete_many({'owner_id': owner_id})]. *)
Definition delete_by_owner (store : list note) (owner : string) : list note :=
  filter (fun n => negb (opt_str_eqb (owner_id n) (Some owner))) store.

(* ------------------------------------------------------------------ *)
(** ** Listings, JSON view and the creation route *)

(** [{'$in': ps}] on a value: a string in [ps], or an array with a string
    element in [ps]. *)
Definition in_matches (ps : list string) (v : jvalue) : bool :=
  match v with
  | JStr p => mem p ps
  | JArr es => existsb (fun e => match e with JStr p => mem p ps | _ => false end) es
  | _ => false
  end.

(** The query [{'permission': {'$in': ps}}]: a document without the key
    does not match. *)
Definition permission_in (ps : list string) (n : note) : bool :=
  match permission n with Some p => in_matches ps p | None => false end.

(** [.sort(key, -1)]: descending order of a key (the timestamp
    [updated_at], which the record does not carry, is passed in). *)
Fixpoint insert_desc (key : note -> nat) (x : note) (l : list note) : list note :=
  match l with
  | [] => [x]
  | y :: r => if key y <? key x then x :: l else y :: insert_desc key x r
  end.

Fixpoint sort_desc (key : note -> nat) (l : list note) : list note :=
  match l with
  | [] => []
  | x :: r => insert_desc key x (sort_desc key r)
  end.

(** [.limit(n)]; MongoDB reads a limit of 0 as no limit. *)
Definition limit {A} (n : nat) (l : list A) : list A :=
  if n =? 0 then l else firstn n l.

(** [Note.find_public_notes(limit)] *)
Definition find_public_notes (updated_at : note -> nat) (store : list note)
  (lim : nat) : list note :=
  limit lim (sort_desc updated_at
               (filter (permission_in ["freely"; "editable"; "protected"]) store)).

(** The public notes listed by route [GET /users/<username>]
    ([get_user_profile]) for the user with id [uid]. *)
Definition user_public_notes (updated_at : note -> nat) (store : list note)
  (uid : string) : list note :=
  limit 50 (sort_desc updated_at
              (filter (fun n => opt_str_eqb (owner_id n) (Some uid)
                                && permission_in ["protected"; "editable"; "freely"] n)
                      store)).

(** [Note.to_json(note, include_content)] (the two timestamps left out). *)
Record note_json := mk_note_json {
  j_id : string;
  j_shortid : string;
  j_alias : option string;
  j_title : string;
  j_permission : jvalue;
  j_view_count : nat;
  j_owner_id : option string;
  j_last_change_user_id : option string;
  j_content : option string;
  j_description : option string
}.

Definition to_json (note : option note) (include_content : bool) : option note_json :=
  match note with
  | None => None
  | Some n =>
      Some {| j_id := _id n; j_shortid := shortid n; j_alias := alias n;
              j_title := title n;
              j_permission := match permission n with Some p => p | None => JStr "freely" end;
              j_view_count := view_count n; j_owner_id := owner_id n;
              j_last_change_user_id := last_change_user_id n;
              j_content := if include_content then Some (content n) else None;
              j_description := if include_content
                               then Some (generate_description (content n) 200)
                               else None |}
  end.



(** [User.remove_from_history(user_id, note_id)]: [$pull] every entry of
    the note. *)
Definition remove_from_history (history : list history_entry) (note_id : string)
  : list history_entry :=
  filter (fun e => negb (String.eqb (entry_note_id e) note_id)) history.

(* ------------------------------------------------------------------ *)
(** ** Images ([Image], routes [upload_image], [delete_image]) *)

(** The first element satisfying [q] removed ([delete_one]). *)
Fixpoint remove_first_by {A} (q : A -> bool) (l : list A) : list A :=
  match l with
  | [] => []
  | x :: rest => if q x then rest else x :: remove_first_by q rest
  end.

(** An image document; the bytes are a string, sizes are [N]. *)
Record image := mk_image {
  img_id : string;
  filename : string;
  content_type : string;
  img_data : string;
  size : N;
  img_note_id : option string;
  uploaded_by : option string
}.

(** The multipart request of [POST /images/upload]: the length of its body
    ([request.content_length]), whether werkzeug's limits on the parts of
    the form ([max_form_memory_size], [max_form_parts]) refuse it, and the
    parsed form. *)
Record upload_request := mk_upload {
  content_length : N;
  form_too_large : bool;
  has_image : bool;                 (* ['image' in request.files] *)
  up_filename : string;
  up_content_type : string;
  up_data : string;
  form_note_id : option string
}.

Definition allowed_types : list string :=
  ["image/png"; "image/jpeg"; "image/gif"; "image/webp"].

Definition max_image_size : N := 5 * 1024 * 1024.

(** [Config.MAX_CONTENT_LENGTH], loaded by [app.config.from_object]. *)
Definition MAX_CONTENT_LENGTH : N := 16 * 1024 * 1024.

(** Route [POST /images/upload] ([upload_image]) followed by
    [Image.create]; [size] is [file.tell()] after seeking to the end, the
    length of the data.  The first access to [request.files] parses the
    body: werkzeug raises [RequestEntityTooLarge] (answer 413) for a body
    longer than [MAX_CONTENT_LENGTH] or a form its part limits refuse. *)
Definition upload_image (store : list image) (user_id : option string)
  (req : upload_request) (inserted : option string) : nat * list image :=
  if N.ltb MAX_CONTENT_LENGTH (content_length req) || form_too_large req then (413, store)
  else if negb (has_image req) then (400, store)
  else if String.eqb (up_filename req) "" then (400, store)
  else if negb (mem (up_content_type req) allowed_types) then (400, store)
  else
    let sz := N.of_nat (String.length (up_data req)) in
    if N.ltb max_image_size sz then (400, store)
    else match inserted with
         | None => (500, store)
         | Some oid =>
             (201, store ++ [mk_image oid (up_filename req) (up_content_type req)
                               (up_data req) sz (form_note_id req) user_id])
         end.

(** [Image.find_by_id(image_id)] *)
Definition image_find_by_id (store : list image) (image_id : string) : option image :=
  match object_id image_id with
  | Some oid => find (fun im => String.eqb (img_id im) oid) store
  | None => None
  end.

(** [Image.delete(image_id)] *)
Definition image_delete (store : list image) (image_id : string) : bool * list image :=
  match object_id image_id with
  | Some oid =>
      if existsb (fun im => String.eqb (img_id im) oid) store
      then (true, remove_first_by (fun im => String.eqb (img_id im) oid) store)
      else (false, store)
  | None => (false, store)
  end.

(** Route [DELETE /images/<image_id>] ([delete_image]); [jwt_required]. *)
Definition delete_image (store : list image) (user_id : string) (image_id : string)
  : nat * list image :=
  match image_find_by_id store image_id with
  | None => (404, store)
  | Some im =>
      if negb (opt_str_eqb (uploaded_by im) (Some user_id)) then (403, store)
      else match image_delete store image_id with
           | (true, store') => (200, store')
           | (false, _) => (500, store)
           end
  end.

(* ------------------------------------------------------------------ *)
(** ** Users ([User], routes [register], [login], [change_password],
    [update_profile]) *)

Record user := mk_user {
  u_id : string;
  email : string;
  password : option string;         (* the bcrypt hash *)
  username : option string;
  display_name : option string;
  avatar_url : option string;
  history : list history_entry;
  created_at : nat;                 (* [datetime.utcnow()] readings *)
  updated_at : nat
}.

(** [str.lower()] on code points 0..255. *)
Definition py_lower (c : ascii) : ascii :=
  let n := nat_of_ascii c in
  if ((65 <=? n) && (n <=? 90)) || ((192 <=? n) && (n <=? 222) && negb (n =? 215))
  then ascii_of_nat (n + 32) else c.

Definition py_lower_string (s : string) : string :=
  string_of_list_ascii (map py_lower (list_ascii_of_string s)).

(** [User.find_by_email(email)] *)
Definition find_by_email (store : list user) (e : string) : option user :=
  find (fun u => String.eqb (email u) (py_lower_string e)) store.

(** [User.find_by_username(username)]; [{'username': None}] matches a
    null or missing username. *)
Definition find_by_username (store : list user) (name : option string) : option user :=
  find (fun u => opt_str_eqb (username u) name) store.

(** [User.find_by_id(user_id)] *)
Definition user_find_by_id (store : list user) (user_id : string) : option user :=
  match object_id user_id with
  | Some oid => find (fun u => String.eqb (u_id u) oid) store
  | None => None
  end.

(** [email.split('@')[0]] *)
Definition email_local_part (e : string) : string :=
  string_of_list_ascii (fst (span (fun c => negb (is_char 64 c)) (list_ascii_of_string e))).

(** [User.create(email, password, username)]; [hashed] is the bcrypt hash
    of the password, [t1] and [t2] the two readings of
    [datetime.utcnow()] and [inserted] the outcome of [insert_one]. *)
Definition user_create (e : string) (hashed : string) (name : option string)
  (t1 t2 : nat) (inserted : option string) : option user :=
  match inserted with
  | None => None
  | Some oid =>
      Some {| u_id := oid; email := py_lower_string e; password := Some hashed;
              username := name;
              display_name := if truthy name then name else Some (email_local_part e);
              avatar_url := None; history := []; created_at := t1; updated_at := t2 |}
  end.


(** The first element satisfying [q] replaced by its image under [f]
    ([find_one_and_update], [update_one]). *)
Fixpoint update_first_by {A} (q : A -> bool) (f : A -> A) (l : list A) : list A :=
  match l with
  | [] => []
  | x :: rest => if q x then f x :: rest else x :: update_first_by q f rest
  end.

(** A request body of [register]; [None] is a missing or empty body
    ([not data]). *)
Record auth_request := mk_auth_request {
  a_email : option string;
  a_password : option string;
  a_username : option string
}.

(** Route [POST /auth/register] ([register]); [hashed], [t1], [t2] and
    [inserted] are as for [User.create]. *)
Definition register (store : list user) (data : option auth_request)
  (hashed : string) (t1 t2 : nat) (inserted : option string) : nat * list user :=
  match data with
  | None => (400, store)
  | Some d =>
      match a_email d, a_password d with
      | Some e, Some pw =>
          if negb (truthy (Some e)) || negb (truthy (Some pw)) then (400, store)
          else if is_not_none (find_by_email store e) then (409, store)
          else if truthy (a_username d)
                  && is_not_none (find_by_username store (a_username d)) then (409, store)
          else match user_create e hashed (a_username d) t1 t2 inserted with
               | None => (500, store)
               | Some u => (201, store ++ [u])
               end
      | _, _ => (400, store)
      end
  end.

(** Python truthiness of a JSON value. *)
Definition jtruthy (v : jvalue) : bool :=
  match v with
  | JNull => false
  | JBool b => b
  | JNum z => negb (Z.eqb z 0)
  | JStr s => negb (String.eqb s "")
  | JArr l => match l with [] => false | _ => true end
  | JObj f => match f with [] => false | _ => true end
  end.

(** [d.get(k)] on a dict. *)
Definition jget (k : string) (fields : list (string * jvalue)) : option jvalue :=
  match find (fun kv => String.eqb (fst kv) k) fields with
  | Some (_, v) => Some v
  | None => None
  end.

(** [len(v)]; [None] when [len] raises [TypeError] (a number, a boolean,
    [None]). *)
Definition py_len (v : jvalue) : option nat :=
  match v with
  | JStr s => Some (String.length s)
  | JArr l => Some (length l)
  | JObj f => Some (length f)
  | _ => None
  end.

(** The outcome of [request.get_json()]: it raises [UnsupportedMediaType]
    (415) for a body of another content type and [BadRequest] (400) for
    malformed JSON; otherwise it gives the JSON value. *)
Inductive json_body :=
  | BodyUnsupported
  | BodyMalformed
  | Body (v : jvalue).

(** [bcrypt.checkpw(password, hashed)] on a password and a stored hash:
    [None] when it raises (a malformed hash, for instance). *)
Section Bcrypt.
Variable checkpw : string -> string -> option bool.

(** [User.verify_password(user, password)]: [None] when it raises.  A
    falsy stored hash gives [False] before [password.encode] is reached;
    otherwise a password that is no string makes [password.encode] raise
    [AttributeError]. *)
Definition verify_password (u : option user) (pw : jvalue) : option bool :=
  match u with
  | None => Some false
  | Some u =>
      match password u with
      | Some h =>
          if String.eqb h "" then Some false
          else match pw with
               | JStr p => checkpw p h
               | _ => None
               end
      | None => Some false
      end
  end.

(** Route [POST /auth/login] ([login]): the status and the user the
    tokens are issued for.  An exception the route does not catch is
    answered 500 by Flask: [data.get] on a JSON value that is no dict,
    [email.lower()] in [User.find_by_email] on an e-mail that is no
    string, and [verify_password] raising. *)
Definition login (store : list user) (body : json_body) : nat * option user :=
  match body with
  | BodyUnsupported => (415, None)
  | BodyMalformed => (400, None)
  | Body data =>
      if negb (jtruthy data) then (400, None)
      else match data with
           | JObj fields =>
               match jget "email" fields, jget "password" fields with
               | Some ev, Some pv =>
                   if negb (jtruthy ev) || negb (jtruthy pv) then (400, None)
                   else match ev with
                        | JStr e =>
                            match find_by_email store e with
                            | None => (401, None)
                            | Some u =>
                                match verify_password (Some u) pv with
                                | None => (500, None)
                                | Some false => (401, None)
                                | Some true => (200, Some u)
                                end
                            end
                        | _ => (500, None)
                        end
               | _, _ => (400, None)
               end
           | _ => (500, None)
           end
  end.
End Bcrypt.

(** One [$set] of [User.update]: the keys the routes write. *)
Definition set_field (u : user) (kv : string * option string) : user :=
  let (k, v) := kv in
  if String.eqb k "username" then
    {| u_id := u_id u; email := email u; password := password u; username := v;
       display_name := display_name u; avatar_url := avatar_url u; history := history u;
       created_at := created_at u; updated_at := updated_at u |}
  else if String.eqb k "display_name" then
    {| u_id := u_id u; email := email u; password := password u; username := username u;
       display_name := v; avatar_url := avatar_url u; history := history u;
       created_at := created_at u; updated_at := updated_at u |}
  else if String.eqb k "avatar_url" then
    {| u_id := u_id u; email := email u; password := password u; username := username u;
       display_name := display_name u; avatar_url := v; history := history u;
       created_at := created_at u; updated_at := updated_at u |}
  else if String.eqb k "password" then
    {| u_id := u_id u; email := email u; password := v; username := username u;
       display_name := display_name u; avatar_url := avatar_url u; history := history u;
       created_at := created_at u; updated_at := updated_at u |}
  else u.

(** The [$set] of [update_data['updated_at'] = datetime.utcnow()]. *)
Definition set_updated_at (now : nat) (u : user) : user :=
  {| u_id := u_id u; email := email u; password := password u; username := username u;
     display_name := display_name u; avatar_url := avatar_url u; history := history u;
     created_at := created_at u; updated_at := now |}.

(** The document [User.update] writes: the fields of [update_data] and
    [updated_at]. *)
Definition apply_user_update (kvs : list (string * option string)) (now : nat)
  (u : user) : user :=
  set_updated_at now (fold_left set_field kvs u).

(** [User.update(user_id, update_data)] at time [now]: the updated
    document, or [None] when the id does not parse or matches no user. *)
Definition user_update (store : list user) (user_id : string)
  (update_data : list (string * option string)) (now : nat) : option user * list user :=
  match object_id user_id with
  | None => (None, store)
  | Some oid =>
      match find (fun u => String.eqb (u_id u) oid) store with
      | None => (None, store)
      | Some u =>
          (Some (apply_user_update update_data now u),
           update_first_by (fun u => String.eqb (u_id u) oid)
                           (apply_user_update update_data now) store)
      end
  end.

Definition allowed_fields : list string := ["username"; "display_name"; "avatar_url"].

(** Route [PUT /users/me] ([update_profile]) at time [now]; the body is a
    JSON object, an association list with distinct keys. *)
Definition update_profile (store : list user) (user_id : string)
  (data : list (string * option string)) (now : nat) : nat * list user :=
  let update_data := filter (fun kv => mem (fst kv) allowed_fields) data in
  let taken :=
    match find (fun kv => String.eqb (fst kv) "username") update_data with
    | Some (_, name) =>
        match find_by_username store name with
        | Some existing => negb (String.eqb (u_id existing) user_id)
        | None => false
        end
    | None => false
    end in
  if taken then (409, store)
  else match user_update store user_id update_data now with
       | (None, _) => (500, store)
       | (Some _, store') => (200, store')
       end.

(** Route [PUT /users/me/password] ([change_password]) at time [now];
    [hashed] is the bcrypt hash [User.update_password] computes.  The body
    is [request.get_json() or {}]; as for [login], an uncaught exception
    is answered 500: [data.get] on a value that is no dict, [len] of a
    number or boolean, [verify_password] raising, and
    [new_password.encode] in [User.update_password] on a new password that
    is no string. *)
Definition change_password (checkpw : string -> string -> option bool)
  (store : list user) (user_id : string) (body : json_body) (hashed : string)
  (now : nat) : nat * list user :=
  match body with
  | BodyUnsupported => (415, store)
  | BodyMalformed => (400, store)
  | Body v =>
      match (if jtruthy v then v else JObj []) with
      | JObj fields =>
          match jget "current_password" fields, jget "new_password" fields with
          | Some cur, Some nw =>
              if negb (jtruthy cur) || negb (jtruthy nw) then (400, store)
              else match py_len nw with
                   | None => (500, store)
                   | Some k =>
                       if k <? 6 then (400, store)
                       else match user_find_by_id store user_id with
                            | None => (401, store)
                            | Some u =>
                                match verify_password checkpw (Some u) cur with
                                | None => (500, store)
                                | Some false => (401, store)
                                | Some true =>
                                    match nw with
                                    | JStr _ =>
                                        match user_update store user_id
                                                [("password", Some hashed)] now with
                                        | (None, _) => (500, store)
                                        | (Some _, store') => (200, store')
                                        end
                                    | _ => (500, store)
                                    end
                                end
                            end
                   end
          | _, _ => (400, store)
          end
      | _ => (500, store)
      end
  end.

(** [User.delete(user_id)] *)
Definition user_delete (store : list user) (user_id : string) : bool * list user :=
  match object_id user_id with
  | Some oid =>
      if existsb (fun u => String.eqb (u_id u) oid) store
      then (true, remove_first_by (fun u => String.eqb (u_id u) oid) store)
      else (false, store)
  | None => (false, store)
  end.

(** Route [DELETE /users/me] ([delete_account]): the notes go first. *)
Definition delete_account (notes : list note) (users : list user) (user_id : string)
  : nat * list note * list user :=
  let notes' := delete_by_owner notes user_id in
  match user_delete users user_id with
  | (true, users') => (200, notes', users')
  | (false, _) => (500, notes', users)
  end.

(* ------------------------------------------------------------------ *)
(** ** Observations used by the properties *)

(** The total of the view counters of a collection. *)
Definition sum_view_counts (store : list note) : nat :=
  fold_right (fun n acc => view_count n + acc) 0 store.

(** Sample data: a stored note, and a text made of one 201-letter word. *)
Definition sample_note : note :=
  mk_note "0123456789abcdef01234567" "abcdefghij" (Some "my-notes") "t" "c"
    (Some "u1") (Some (JStr "protected")) 0 None.

Definition long_word : string := string_of_list_ascii (repeat (chr 97) 201).
(** Fifty words of four letters, each followed by a space. *)
Definition long_text : string :=
  string_of_list_ascii (concat (repeat (list_ascii_of_string "word ") 50)).

(* ================================================================== *)
(** * Properties *)

Lemma truthy_present (s : string) : s <> "" -> truthy (Some s) = true.
Proof.
  intros Hs. simpl. destruct (String.eqb_spec s ""); [contradiction | reflexivity].
Qed.

(** Claim C1: for each of the six levels and each actor (absent, present
    non-owner, present owner), [can_view] and [can_edit] give exactly the
    (viewable, editable) pair of the table of section 4.1.  Present actor
    ids are JWT identities [str(ObjectId)], hence non-empty. *)
Theorem permission_table (l : level) (n : note) (user_id : option string)
  (Hperm : permission n = Some (JStr (level_name l)))
  (Hid : user_id <> Some "") :
  (can_view (Some n) user_id, can_edit (Some n) user_id)
  = spec_table l (is_not_none user_id) (spec_owner n user_id).
Proof.
  unfold can_view, can_edit, spec_owner, is_owner, get_permission.
  rewrite Hperm.
  destruct user_id as [s|].
  - assert (Hs : s <> "") by congruence.
    rewrite (truthy_present s Hs).
    destruct l; reflexivity.
  - destruct l; reflexivity.
Qed.

Lemma permission_table_witness :
  permission (mk_note "0123456789abcdef01234567" "abcdefghij" None "t" "c"
                (Some "u1") (Some (JStr "locked")) 0 None) = Some (JStr (level_name Locked))
  /\ (can_view (Some (mk_note "0123456789abcdef01234567" "abcdefghij" None "t" "c"
                       (Some "u1") (Some (JStr "locked")) 0 None)) (Some "u2"),
      can_edit (Some (mk_note "0123456789abcdef01234567" "abcdefghij" None "t" "c"
                       (Some "u1") (Some (JStr "locked")) 0 None)) (Some "u2"))
     = (true, false).
Proof.
  split; [reflexivity |].
  rewrite (permission_table Locked _ (Some "u2")); [reflexivity | reflexivity | discriminate].
Defined.

(** Claim C6: an absent note can be neither viewed nor edited by anybody,
    and [is_owner] is false when the note, the actor or the note's owner
    is absent (in particular for an anonymous actor on an anonymous note). *)
Theorem absent_note_and_owner (n : note) (user_id : option string) :
  can_view None user_id = false /\ can_edit None user_id = false
  /\ is_owner None user_id = false
  /\ is_owner (Some n) None = false
  /\ (owner_id n = None -> is_owner (Some n) user_id = false).
Proof.
  unfold is_owner.
  split; [reflexivity|]. split; [reflexivity|].
  split; [destruct user_id as [s|]; simpl; [destruct (String.eqb s "")|]; reflexivity|].
  split; [reflexivity|].
  intros Hown. rewrite Hown.
  destruct user_id as [s|]; [|reflexivity]. simpl.
  destruct (String.eqb s ""); reflexivity.
Qed.

Lemma absent_note_and_owner_witness :
  is_owner (Some (mk_note "0123456789abcdef01234567" "abcdefghij" None "t" "c"
                    None (Some (JStr "freely")) 0 None)) (Some "u1") = false.
Proof.
  apply (proj2 (proj2 (proj2 (proj2 (absent_note_and_owner
           (mk_note "0123456789abcdef01234567" "abcdefghij" None "t" "c"
              None (Some (JStr "freely")) 0 None) (Some "u1")))))).
  reflexivity.
Defined.

(** Claim C10: for a permission value that is none of the six levels
    (another string, or a value that is no string at all, such as [null]
    or an array), everybody may view and nobody (not even the owner) may
    edit. *)
Theorem unknown_permission (n : note) (user_id : option string)
  (Hunk : ~ In (get_permission n) (map JStr level_names)) :
  can_view (Some n) user_id = true /\ can_edit (Some n) user_id = false.
Proof.
  assert (Hne : forall s, In s level_names -> jeqb_str (get_permission n) s = false).
  { intros s Hs. destruct (get_permission n) as [| | |t| |]; try reflexivity.
    simpl. destruct (String.eqb_spec t s) as [<-|]; [|reflexivity].
    exfalso. apply Hunk. apply in_map. exact Hs. }
  unfold can_view, can_edit. cbv zeta. cbn [existsb].
  rewrite !Hne by (simpl; tauto).
  split; reflexivity.
Qed.

Lemma unknown_permission_witness :
  (can_view (Some (mk_note "0123456789abcdef01234567" "abcdefghij" None "t" "c"
                     (Some "u1") (Some (JStr "public")) 0 None)) (Some "u1") = true
   /\ can_edit (Some (mk_note "0123456789abcdef01234567" "abcdefghij" None "t" "c"
                       (Some "u1") (Some (JStr "public")) 0 None)) (Some "u1") = false)
  /\ can_edit (Some (mk_note "0123456789abcdef01234567" "abcdefghij" None "t" "c"
                     (Some "u1") (Some JNull) 0 None)) (Some "u1") = false.
Proof.
  split.
  - apply unknown_permission. simpl. intuition discriminate.
  - apply (unknown_permission (mk_note "0123456789abcdef01234567" "abcdefghij" None "t" "c"
                                 (Some "u1") (Some JNull) 0 None) (Some "u1")).
    simpl. intuition discriminate.
Defined.


Lemma opt_str_eqb_some (x : option string) (a : string) :
  opt_str_eqb x (Some a) = true <-> x = Some a.
Proof.
  destruct x as [b|]; simpl; [|split; discriminate].
  rewrite String.eqb_eq. split; congruence.
Qed.







(** Claim C8: a note created without an owner has permission [freely]
    whatever permission was asked for; with an owner present it keeps the
    permission supplied. *)
Theorem create_permission (sid : string) (inserted : option string)
  (title0 content0 perm : string) (alias0 : option string) :
  (forall n, create sid inserted None title0 content0 perm alias0 = Some n ->
             permission n = Some (JStr "freely"))
  /\ (forall u n, u <> "" ->
        create sid inserted (Some u) title0 content0 perm alias0 = Some n ->
        permission n = Some (JStr perm)).
Proof.
  unfold create. split.
  - intros n H. destruct inserted; [|discriminate].
    injection H as <-. reflexivity.
  - intros u n Hu H. destruct inserted; [|discriminate].
    injection H as <-. cbn [permission].
    destruct (String.eqb_spec u ""); [contradiction | reflexivity].
Qed.

Lemma create_permission_witness :
  (exists n, create "abcdefghij" (Some "0123456789abcdef01234567") None "t" ""
               "private" None = Some n /\ permission n = Some (JStr "freely"))
  /\ (exists n, create "abcdefghij" (Some "0123456789abcdef01234567") (Some "u1") "t" ""
                  "private" None = Some n /\ permission n = Some (JStr "private")).
Proof.
  split; eexists; split; [reflexivity| | reflexivity|].
  - apply (proj1 (create_permission "abcdefghij" (Some "0123456789abcdef01234567")
                    "t" "" "private" None)). reflexivity.
  - apply (proj2 (create_permission "abcdefghij" (Some "0123456789abcdef01234567")
                    "t" "" "private" None) "u1"); [discriminate | reflexivity].
Defined.

(** Access history. *)

Lemma StronglySorted_firstn {A} (R : A -> A -> Prop) (k : nat) (l : list A) :
  StronglySorted R l -> StronglySorted R (firstn k l).
Proof.
  revert l. induction k as [|k IH]; intros l H; [constructor|].
  destruct l as [|x l]; [constructor|].
  apply StronglySorted_inv in H as [H1 H2]. simpl. constructor; [auto|].
  rewrite Forall_forall in *. intros y Hy. apply H2.
  rewrite <- (firstn_skipn k l). apply in_or_app. left. exact Hy.
Qed.

Lemma StronglySorted_filter {A} (R : A -> A -> Prop) (p : A -> bool) (l : list A) :
  StronglySorted R l -> StronglySorted R (filter p l).
Proof.
  induction l as [|x l IH]; intros H; simpl; [constructor|].
  apply StronglySorted_inv in H as [H1 H2].
  destruct (p x); [|auto].
  constructor; [auto|].
  rewrite Forall_forall in *. intros y Hy. apply filter_In in Hy. apply H2, Hy.
Qed.

(** Pulling entries keeps the note ids distinct. *)
Lemma NoDup_map_filter {A B} (key : A -> B) (keep : A -> bool) (xs : list A) :
  NoDup (map key xs) -> NoDup (map key (filter keep xs)).
Proof.
  induction xs as [|x xs IHxs]; simpl; intros Hnd; [constructor|].
  apply NoDup_cons_iff in Hnd as [Hx Hxs].
  destruct (keep x); simpl; [|exact (IHxs Hxs)].
  apply NoDup_cons; [|exact (IHxs Hxs)].
  rewrite in_map_iff. intros [y [Hy Hin]]. apply Hx.
  apply filter_In in Hin. apply in_map_iff. exists y. tauto.
Qed.

Lemma NoDup_firstn {A} (k : nat) (l : list A) : NoDup l -> NoDup (firstn k l).
Proof.
  intros H. rewrite <- (firstn_skipn k l) in H. exact (NoDup_app_remove_r _ _ H).
Qed.

Lemma recent_first_trans (a b c : history_entry) :
  recent_first a b -> recent_first b c -> recent_first a c.
Proof. intros H1 H2. unfold recent_first in *. lia. Qed.

Lemma filter_all_false {A} (p : A -> bool) (l : list A) :
  (forall x, In x l -> p x = false) -> filter p l = [].
Proof.
  induction l as [|x l IH]; intros H; simpl; [reflexivity|].
  rewrite (H x (or_introl eq_refl)). apply IH. intros y Hy. apply H. right. exact Hy.
Qed.

Lemma add_to_history_step (h : list history_entry) (note_id : string) (now : nat)
  (Hok : history_ok h) (Hnow : Forall (fun e => accessed_at e <= now) h) :
  history_ok (add_to_history h note_id now)
  /\ hd_error (add_to_history h note_id now) = Some (mk_entry note_id now)
  /\ filter (fun e => String.eqb (entry_note_id e) note_id)
            (add_to_history h note_id now) = [mk_entry note_id now]
  /\ Forall (fun e => accessed_at e <= now) (add_to_history h note_id now).
Proof.
  destruct Hok as [Hnd [_ Hs]].
  set (pulled := filter (fun e => negb (String.eqb (entry_note_id e) note_id)) h).
  assert (Hpulled : forall e, In e pulled -> entry_note_id e <> note_id).
  { intros e He. apply filter_In in He as [_ He].
    apply negb_true_iff, String.eqb_neq in He. exact He. }
  assert (Hss : StronglySorted recent_first (mk_entry note_id now :: pulled)).
  { constructor.
    - apply StronglySorted_filter, Sorted_StronglySorted; [exact recent_first_trans|exact Hs].
    - rewrite Forall_forall in *. intros e He. apply filter_In in He as [He _].
      apply (Hnow e He). }
  unfold add_to_history. fold pulled.
  split; [split; [|split]|split; [|split]].
  - rewrite <- firstn_map. apply NoDup_firstn. simpl. constructor.
    + intros Hin. apply in_map_iff in Hin as [e [He Hin]]. exact (Hpulled e Hin He).
    + apply NoDup_map_filter. exact Hnd.
  - apply firstn_le_length.
  - apply StronglySorted_Sorted, StronglySorted_firstn, Hss.
  - reflexivity.
  - change (firstn 100 (mk_entry note_id now :: pulled))
      with (mk_entry note_id now :: firstn 99 pulled).
    simpl. rewrite String.eqb_refl. f_equal.
    apply filter_all_false. intros e He. apply String.eqb_neq.
    apply Hpulled. rewrite <- (firstn_skipn 99 pulled). apply in_or_app. left. exact He.
  - rewrite Forall_forall. intros e He.
    assert (Hin : In e (mk_entry note_id now :: pulled)).
    { rewrite <- (firstn_skipn 100 (mk_entry note_id now :: pulled)).
      apply in_or_app. left. exact He. }
    destruct Hin as [<-|Hin]; [simpl; lia|].
    apply filter_In in Hin as [Hin _]. rewrite Forall_forall in Hnow. apply (Hnow e Hin).
Qed.

Lemma Forall_le_mono (h : list history_entry) (t0 t : nat) :
  t0 <= t -> Forall (fun e => accessed_at e <= t0) h ->
  Forall (fun e => accessed_at e <= t) h.
Proof. intros Ht H. eapply Forall_impl; [|exact H]. intros e He. simpl in He. lia. Qed.

Lemma run_history_ok (ops : list (string * nat)) :
  forall (h : list history_entry) (t0 : nat) (note_id : string) (now : nat),
  history_ok h -> Forall (fun e => accessed_at e <= t0) h ->
  times_from t0 (ops ++ [(note_id, now)]) ->
  history_ok (run_history h ops)
  /\ Forall (fun e => accessed_at e <= now) (run_history h ops).
Proof.
  induction ops as [|[n t] rest IH]; intros h t0 note_id now Hok Hh Hclock.
  - simpl in Hclock. destruct Hclock as [Hle _].
    split; [exact Hok|]. exact (Forall_le_mono h t0 now Hle Hh).
  - simpl in Hclock. destruct Hclock as [Hle Hclock].
    destruct (add_to_history_step h n t Hok (Forall_le_mono h t0 t Hle Hh))
      as [Hok' [_ [_ Hb]]].
    exact (IH (add_to_history h n t) t note_id now Hok' Hb Hclock).
Qed.

(** Claim C9: along any sequence of [add_to_history] calls (with a clock
    that does not go back), the history keeps one entry per note id, at
    most 100 entries, most recent first; the note just added is the first
    entry and its only entry (re-adding moves it to the front with the new
    time instead of duplicating it). *)
Theorem history_invariant (h0 : list history_entry) (t0 : nat)
  (ops : list (string * nat)) (note_id : string) (now : nat)
  (Hok : history_ok h0) (Hh0 : Forall (fun e => accessed_at e <= t0) h0)
  (Hclock : times_from t0 (ops ++ [(note_id, now)])) :
  history_ok (run_history h0 (ops ++ [(note_id, now)]))
  /\ hd_error (run_history h0 (ops ++ [(note_id, now)])) = Some (mk_entry note_id now)
  /\ filter (fun e => String.eqb (entry_note_id e) note_id)
            (run_history h0 (ops ++ [(note_id, now)])) = [mk_entry note_id now].
Proof.
  destruct (run_history_ok ops h0 t0 note_id now Hok Hh0 Hclock) as [Hok' Hb].
  unfold run_history. rewrite fold_left_app. simpl. fold (run_history h0 ops).
  destruct (add_to_history_step (run_history h0 ops) note_id now Hok' Hb)
    as [H1 [H2 [H3 _]]].
  auto.
Qed.

Lemma history_invariant_witness :
  run_history [] [("n1", 1); ("n2", 2); ("n1", 3)]
  = [mk_entry "n1" 3; mk_entry "n2" 2]
  /\ hd_error (run_history [] ([("n1", 1); ("n2", 2)] ++ [("n1", 3)]))
     = Some (mk_entry "n1" 3).
Proof.
  split; [reflexivity|].
  apply (history_invariant [] 0 [("n1", 1); ("n2", 2)] "n1" 3).
  - split; [constructor|]. split; [simpl; lia | constructor].
  - constructor.
  - simpl. repeat split; lia.
Defined.

(** Description. *)

Lemma span_spec (p : ascii -> bool) (l : list ascii) :
  l = fst (span p l) ++ snd (span p l)
  /\ Forall (fun x => p x = true) (fst (span p l))
  /\ match snd (span p l) with [] => True | x :: _ => p x = false end.
Proof.
  induction l as [|c r IH]; simpl; [repeat split; constructor|].
  destruct (p c) eqn:Hc.
  - destruct (span p r) as [a b]. simpl in *. destruct IH as [H1 [H2 H3]].
    split; [rewrite H1 at 1; reflexivity|]. split; [constructor; assumption|exact H3].
  - simpl. repeat split; [constructor|exact Hc].
Qed.

Lemma is_space_char (c : ascii) : is_char SPACE c = true <-> c = chr SPACE.
Proof.
  unfold is_char, chr. rewrite Nat.eqb_eq. split.
  - intros H. rewrite <- H. symmetry. apply ascii_nat_embedding.
  - intros ->. reflexivity.
Qed.

Lemma rsplit_head_spec (s : list ascii) :
  (In (chr SPACE) s -> exists pre rest, s = pre ++ chr SPACE :: rest
                        /\ ~ In (chr SPACE) rest /\ rsplit_head s = pre)
  /\ (~ In (chr SPACE) s -> rsplit_head s = s).
Proof.
  unfold rsplit_head.
  destruct (span_spec (fun x => negb (is_char SPACE x)) (rev s)) as [H1 [H2 H3]].
  destruct (span (fun x => negb (is_char SPACE x)) (rev s)) as [a b]. simpl in *.
  assert (Ha : ~ In (chr SPACE) a).
  { intros Hin. rewrite Forall_forall in H2. specialize (H2 _ Hin).
    vm_compute in H2. discriminate. }
  destruct b as [|x before].
  - rewrite app_nil_r in H1. split; [|reflexivity].
    intros Hin. exfalso. apply Ha. rewrite <- H1. apply in_rev in Hin.
    exact Hin.
  - apply negb_false_iff, is_space_char in H3. subst x.
    assert (Hs : s = rev before ++ chr SPACE :: rev a).
    { rewrite <- (rev_involutive s), H1. rewrite rev_app_distr. simpl.
      rewrite <- app_assoc. reflexivity. }
    split.
    + intros _. exists (rev before), (rev a). split; [exact Hs|]. split; [|reflexivity].
      intros Hin. apply Ha. apply in_rev. exact Hin.
    + intros Hnot. exfalso. apply Hnot. rewrite Hs. apply in_or_app. right. left. reflexivity.
Qed.

(** Claim C5 (as stated, refuted): for a text of one 201-letter word the
    description is its first 200 letters and an ellipsis: the cut falls
    between two letters of the word, at no whitespace boundary. *)
Lemma description_cuts_mid_word :
  200 < length (description_text long_word)
  /\ generate_description long_word 200
     = string_of_list_ascii (firstn 200 (description_text long_word) ++ ellipsis)
  /\ nth 199 (description_text long_word) (chr 0) = chr 97
  /\ nth 200 (description_text long_word) (chr 0) = chr 97
  /\ ~ exists pre rest, description_text long_word = pre ++ chr SPACE :: rest
                        /\ generate_description long_word 200
                           = string_of_list_ascii (pre ++ ellipsis).
Proof.
  assert (Ht : description_text long_word = repeat (chr 97) 201) by (vm_compute; reflexivity).
  rewrite Ht. split; [vm_compute; lia|].
  split; [vm_compute; reflexivity|].
  split; [reflexivity|]. split; [reflexivity|].
  intros [pre [rest [Hsplit _]]].
  assert (Hin : In (chr SPACE) (repeat (chr 97) 201)).
  { rewrite Hsplit. apply in_or_app. right. left. reflexivity. }
  apply repeat_spec in Hin. discriminate.
Qed.

(** Claim C5 (amended): let [t] be the markdown-stripped,
    whitespace-collapsed text.  If [t] has at most 200 characters it is the
    description.  Otherwise, when its first 200 characters contain a space,
    the description is the text before the last of these spaces (so it ends
    at a whitespace boundary of [t], with fewer than 200 characters)
    followed by "..."; when they contain no space, it is those 200
    characters followed by "...". *)
Theorem description_truncation (content : string) :
  (length (description_text content) <= 200 ->
   generate_description content 200 = string_of_list_ascii (description_text content))
  /\ (200 < length (description_text content) ->
      In (chr SPACE) (firstn 200 (description_text content)) ->
      exists pre rest,
        firstn 200 (description_text content) = pre ++ chr SPACE :: rest
        /\ ~ In (chr SPACE) rest
        /\ length pre < 200
        /\ generate_description content 200 = string_of_list_ascii (pre ++ ellipsis))
  /\ (200 < length (description_text content) ->
      ~ In (chr SPACE) (firstn 200 (description_text content)) ->
      generate_description content 200
      = string_of_list_ascii (firstn 200 (description_text content) ++ ellipsis)).
Proof.
  unfold generate_description.
  set (t := description_text content).
  split; [|split].
  - intros Hle. destruct (Nat.ltb_spec 200 (length t)); [lia|reflexivity].
  - intros Hlt Hin. destruct (Nat.ltb_spec 200 (length t)); [|lia].
    destruct (proj1 (rsplit_head_spec (firstn 200 t)) Hin) as [pre [rest [Hs [Hr Hh]]]].
    exists pre, rest. split; [exact Hs|]. split; [exact Hr|]. split.
    + assert (Hlen : length (firstn 200 t) <= 200) by apply firstn_le_length.
      rewrite Hs, length_app in Hlen. simpl in Hlen. lia.
    + rewrite Hh. reflexivity.
  - intros Hlt Hnot. destruct (Nat.ltb_spec 200 (length t)); [|lia].
    rewrite (proj2 (rsplit_head_spec (firstn 200 t)) Hnot). reflexivity.
Qed.

Lemma description_truncation_witness :
  generate_description "alpha beta gamma" 200 = "alpha beta gamma"
  /\ (exists pre rest,
        firstn 200 (description_text long_text) = pre ++ chr SPACE :: rest
        /\ ~ In (chr SPACE) rest
        /\ length pre < 200
        /\ generate_description long_text 200 = string_of_list_ascii (pre ++ ellipsis))
  /\ generate_description long_word 200
     = string_of_list_ascii (firstn 200 (description_text long_word) ++ ellipsis).
Proof.
  split; [|split].
  - apply (proj1 (description_truncation "alpha beta gamma")). vm_compute. lia.
  - apply (proj1 (proj2 (description_truncation long_text))).
    + vm_compute. lia.
    + vm_compute. do 4 right. left. reflexivity.
  - apply (proj2 (proj2 (description_truncation long_word))).
    + vm_compute. lia.
    + assert (Ht : firstn 200 (description_text long_word) = repeat (chr 97) 200)
        by (vm_compute; reflexivity).
      rewrite Ht. intros Hin. apply repeat_spec in Hin. discriminate.
Defined.

(** Rendering. *)

Lemma mem_In (x : string) (l : list string) : mem x l = true <-> In x l.
Proof.
  unfold mem. rewrite existsb_exists. split.
  - intros [y [Hy Heq]]. apply String.eqb_eq in Heq. subst. exact Hy.
  - intros Hin. exists x. split; [exact Hin | apply String.eqb_refl].
Qed.

Lemma allowed_attrs_no_handler (tag k : string) :
  mem k (allowed_attrs tag) = true -> is_event_handler k = false.
Proof.
  intros H. apply mem_In in H. unfold allowed_attrs in H.
  repeat match goal with
         | H : In _ (if ?c then _ else _) |- _ => destruct c
         end;
  simpl in H; intuition (subst; reflexivity).
Qed.

Lemma allow_attrs_sub (tag : string) (attrs : list (string * string)) kv :
  In kv (allow_attrs allowed_attrs tag attrs) -> mem (fst kv) (allowed_attrs tag) = true.
Proof.
  unfold allow_attrs. intros H. apply filter_In in H as [_ H].
  apply andb_true_iff in H. apply H.
Qed.

Lemma in_render_tokens (md : string -> list src_token) (content : string) (t : token) :
  In t (render_tokens md content) ->
  exists t0, In t0 (md content) /\ In t (clean_token allowed_tags allowed_attrs false t0).
Proof. unfold render_tokens, clean. intros H. apply in_flat_map in H. exact H. Qed.

(** Every tag that leaves the sanitizer has an allowed name and only
    allowed attributes. *)
Lemma render_tokens_allowed (md : string -> list src_token) (content : string) (t : token) :
  In t (render_tokens md content) ->
  match tag_name t with
  | Some nm => mem nm allowed_tags = true
               /\ forall kv, In kv (token_attrs t) -> mem (fst kv) (allowed_attrs nm) = true
  | None => True
  end.
Proof.
  intros H. apply in_render_tokens in H as [[t0 src] [_ H]].
  destruct t0 as [nm attrs|nm attrs|nm|s|s]; simpl in H;
    repeat match goal with
           | H : In _ (if ?c then _ else _) |- _ => destruct c eqn:?
           end;
    simpl in H; intuition (subst; simpl; auto);
    eauto using allow_attrs_sub.
Qed.

(** Claim C3: whatever token stream the markdown stage yields, the
    rendered HTML has no [script] tag and no inline event-handler attribute;
    for [<img src=x onerror=alert(1)>] the image tag survives with only its
    [src]. *)
Theorem render_no_script (md : string -> list src_token) :
  (forall content t, In t (render_tokens md content) ->
     tag_name t <> Some "script"
     /\ forall kv, In kv (token_attrs t) -> is_event_handler (fst kv) = false)
  /\ (md img_input = img_tokens ->
      render_tokens md img_input
      = [StartTag "p" []; EmptyTag "img" [("src", "x")]; EndTag "p"]).
Proof.
  split.
  - intros content t H. apply render_tokens_allowed in H.
    destruct t as [nm attrs|nm attrs|nm|s|s]; simpl in *;
      try (split; [discriminate | intros kv []]);
      destruct H as [Hn Ha]; (split;
        [intros Heq; injection Heq as ->; discriminate Hn
        | intros kv Hkv; try destruct Hkv;
          apply (allowed_attrs_no_handler nm); apply Ha; assumption]).
  - intros Hmd. unfold render_tokens. rewrite Hmd. reflexivity.
Qed.

Lemma render_no_script_witness :
  render_tokens markdown_examples img_input
  = [StartTag "p" []; EmptyTag "img" [("src", "x")]; EndTag "p"]
  /\ tag_name (hd (Characters "") (render_tokens markdown_examples script_input))
     <> Some "script".
Proof.
  split.
  - apply (proj2 (render_no_script markdown_examples)). reflexivity.
  - apply (proj1 (render_no_script markdown_examples) script_input).
    vm_compute. left. reflexivity.
Defined.

Lemma list_ascii_of_string_app (a b : string) :
  list_ascii_of_string (a ++ b) = list_ascii_of_string a ++ list_ascii_of_string b.
Proof. induction a as [|c a IH]; simpl; [reflexivity | rewrite IH; reflexivity]. Qed.

Lemma escape_char_no_lt (c : ascii) : ~ In (chr 60) (list_ascii_of_string (escape_char c)).
Proof.
  unfold escape_char. cbv zeta.
  destruct (nat_of_ascii c =? 38); [simpl; intuition discriminate|].
  destruct (Nat.eqb_spec (nat_of_ascii c) 60) as [_|N60]; [simpl; intuition discriminate|].
  destruct (nat_of_ascii c =? 62); [simpl; intuition discriminate|].
  simpl. intros [H|[]]. apply N60. subst c. reflexivity.
Qed.

Lemma concat_no_lt (l : list string) :
  Forall (fun x => ~ In (chr 60) (list_ascii_of_string x)) l ->
  ~ In (chr 60) (list_ascii_of_string (String.concat "" l)).
Proof.
  induction l as [|x r IH]; intros H; [simpl; tauto|].
  inversion H as [|x0 r0 Hx Hr]; subst.
  destruct r as [|y r']; [exact Hx|].
  change (String.concat "" (x :: y :: r')) with (x ++ "" ++ String.concat "" (y :: r'))%string.
  rewrite !list_ascii_of_string_app.
  change (list_ascii_of_string "") with (@nil ascii). rewrite app_nil_l.
  intros Hin. apply in_app_or in Hin as [Hin|Hin]; [exact (Hx Hin)|].
  exact (IH Hr Hin).
Qed.

(** Text leaves the serialiser entity-encoded: it holds no [<]. *)
Lemma escape_no_lt (s : string) : ~ In (chr 60) (list_ascii_of_string (escape s)).
Proof.
  unfold escape. apply concat_no_lt. apply Forall_forall. intros x Hx.
  apply in_map_iff in Hx as [c [<- _]]. apply escape_char_no_lt.
Qed.

(** Claim C4 (as stated, refuted): [render_html] does not strip the
    disallowed [script] tag and keep its inner text: it escapes the tag
    into text.  Stripping ([strip=True]) would give [alert(1)]. *)
Lemma render_escapes_script :
  render_tokens markdown_examples script_input
  = [Characters "<script>"; Characters "alert(1)"; Characters "</script>"]
  /\ render_html markdown_examples script_input = "&lt;script&gt;alert(1)&lt;/script&gt;"
  /\ serialize (clean allowed_tags allowed_attrs true script_tokens) = "alert(1)"
  /\ render_html markdown_examples script_input
     <> serialize (clean allowed_tags allowed_attrs true script_tokens).
Proof.
  split; [reflexivity|]. split; [reflexivity|]. split; [reflexivity|].
  vm_compute. discriminate.
Qed.

(** Claim C4 (amended): a tag outside the allow-list is not removed: it is
    turned into text holding its source text as written (bleach's default
    [strip=False]), and that text is entity-encoded on output; every tag
    that remains has an allowed name and only allowed attributes (other
    attributes are dropped); text is kept. *)
Theorem render_escapes_disallowed (md : string -> list src_token) (content : string) :
  (forall t src, In (t, src) (md content) ->
     match tag_name t with
     | Some nm => mem nm allowed_tags = false ->
                  In (Characters src) (render_tokens md content)
     | None => True
     end)
  /\ (forall t, In t (render_tokens md content) ->
        match tag_name t with
        | Some nm => mem nm allowed_tags = true
                     /\ forall kv, In kv (token_attrs t) -> mem (fst kv) (allowed_attrs nm) = true
        | None => True
        end)
  /\ (forall s src, In (Characters s, src) (md content) ->
        In (Characters s) (render_tokens md content))
  /\ (forall s, ~ In (chr 60) (list_ascii_of_string (serialize_token (Characters s)))).
Proof.
  split; [|split; [|split]].
  - intros t src Ht. unfold render_tokens, clean.
    destruct t as [nm attrs|nm attrs|nm|s|s]; simpl; try exact I; intros Hm;
      apply in_flat_map; eexists; (split; [exact Ht|]); simpl; rewrite Hm; left; reflexivity.
  - apply render_tokens_allowed.
  - intros s src Hs. unfold render_tokens, clean. apply in_flat_map.
    exists (Characters s, src). split; [exact Hs | left; reflexivity].
  - intros s. apply escape_no_lt.
Qed.

Lemma render_escapes_disallowed_witness :
  In (Characters "<SCRIPT src=x>")
     (render_tokens (fun _ => raw_script_tokens) raw_script_input)
  /\ render_html (fun _ => raw_script_tokens) raw_script_input
     = "&lt;SCRIPT src=x&gt;alert(1)&lt;/SCRIPT&gt;".
Proof.
  split.
  - apply (proj1 (render_escapes_disallowed (fun _ => raw_script_tokens) raw_script_input)
             (StartTag "script" [("src", "x")]) "<SCRIPT src=x>");
      [vm_compute; left; reflexivity | reflexivity].
  - vm_compute. reflexivity.
Defined.

(* ------------------------------------------------------------------ *)
(** * Further properties of the code *)

(** Permissions. *)

Lemma is_owner_signed_in (x : option note) (u : option string) :
  is_owner x u = true -> is_not_none u = true.
Proof. unfold is_owner. destruct u; [reflexivity|]. simpl. discriminate. Qed.

(** Whoever may edit a note may also view it, whatever the note's
    permission value (a documented level, an unknown string, a value that
    is no string, or a missing key). *)
Theorem can_edit_implies_can_view (n : note) (u : option string) :
  can_edit (Some n) u = true -> can_view (Some n) u = true.
Proof.
  unfold can_edit, can_view. cbv zeta. generalize (get_permission n) as p. intros p.
  destruct p as [| | |p| |]; cbn [jeqb_str existsb orb]; try discriminate.
  destruct (String.eqb_spec p "freely"); [subst; reflexivity|].
  destruct (String.eqb_spec p "editable"); [subst; reflexivity|].
  destruct (String.eqb_spec p "private"); [subst; auto|].
  destruct (String.eqb_spec p "locked"); [subst; apply is_owner_signed_in|].
  destruct (String.eqb_spec p "protected"); [subst; reflexivity|].
  destruct (String.eqb_spec p "limited"); [subst; auto|].
  discriminate.
Qed.

Lemma can_edit_implies_can_view_witness :
  can_edit (Some sample_note) (Some "u1") = true
  /\ can_view (Some sample_note) (Some "u1") = true.
Proof.
  split; [reflexivity|]. apply can_edit_implies_can_view. reflexivity.
Defined.

(** A note document without a [permission] key is private to the access
    checks (only its owner may view or edit it), while [Note.to_json]
    reports its permission as ["freely"]. *)
Theorem missing_permission (n : note) (u : option string) (include_content : bool) :
  permission n = None ->
  can_view (Some n) u = is_owner (Some n) u
  /\ can_edit (Some n) u = is_owner (Some n) u
  /\ option_map j_permission (to_json (Some n) include_content) = Some (JStr "freely").
Proof.
  intros H. unfold can_view, can_edit, get_permission, to_json. rewrite H.
  split; [reflexivity|]. split; reflexivity.
Qed.

Lemma missing_permission_witness :
  let n := mk_note "0123456789abcdef01234567" "abcdefghij" None "t" "c"
                   (Some "u1") None 0 None in
  can_view (Some n) None = false
  /\ option_map j_permission (to_json (Some n) true) = Some (JStr "freely").
Proof.
  intros n. destruct (missing_permission n None true eq_refl) as [H1 [_ H3]].
  split; [rewrite H1; reflexivity | exact H3].
Defined.

(** Viewing a note. *)

Lemma find_by_id_or_shortid_In (store : list note) (ref : string) (n : note) :
  find_by_id_or_shortid store ref = Some n -> In n store.
Proof.
  intros H.
  unfold find_by_id_or_shortid, find_by_shortid, find_by_alias, find_by_id, find_one in H.
  destruct (find (fun n => String.eqb (shortid n) ref) store) as [a|] eqn:H1.
  - injection H as <-. exact (proj1 (find_some _ _ H1)).
  - destruct (find (fun n => opt_str_eqb (alias n) (Some ref)) store) as [a|] eqn:H2.
    + injection H as <-. exact (proj1 (find_some _ _ H2)).
    + destruct (object_id ref); [|discriminate].
      exact (proj1 (find_some _ _ H)).
Qed.

Lemma increment_view_count_absent (store : list note) (oid : string) :
  ~ In oid (map _id store) -> increment_view_count store oid = store.
Proof.
  induction store as [|m rest IH]; intros Hnot; [reflexivity|].
  simpl in *. destruct (String.eqb_spec (_id m) oid); [tauto|].
  f_equal. apply IH. tauto.
Qed.

Lemma increment_view_count_ids (store : list note) (oid : string) :
  map _id (increment_view_count store oid) = map _id store.
Proof.
  unfold increment_view_count. rewrite map_map. apply map_ext.
  intros m. destruct (String.eqb (_id m) oid); reflexivity.
Qed.

(** With distinct ids, [increment_view_count] on a stored note adds one to
    the total of the counters and keeps every other note. *)
Lemma increment_view_count_one (store : list note) (n : note) :
  NoDup (map _id store) -> In n store ->
  sum_view_counts (increment_view_count store (_id n)) = S (sum_view_counts store)
  /\ (forall m, In m store -> _id m <> _id n -> In m (increment_view_count store (_id n))).
Proof.
  induction store as [|m rest IH]; intros Hnd Hin; [destruct Hin|].
  simpl in Hnd. apply NoDup_cons_iff in Hnd as [Hm Hnd].
  destruct Hin as [<-|Hin].
  - simpl. rewrite String.eqb_refl. rewrite (increment_view_count_absent rest _ Hm).
    split; [reflexivity|]. intros k [<-|Hk] Hne; [tauto|]. right. exact Hk.
  - assert (Hne : _id m <> _id n).
    { intros He. apply Hm. rewrite He. apply in_map. exact Hin. }
    destruct (IH Hnd Hin) as [Hs Hk].
    simpl. destruct (String.eqb_spec (_id m) (_id n)); [contradiction|].
    simpl. fold (increment_view_count rest (_id n)). rewrite Hs. split; [lia|].
    intros k [<-|Hkin] Hkne; [left; reflexivity|]. right. exact (Hk k Hkin Hkne).
Qed.

(** Route [get_note]: answers 404 when the reference resolves to no note
    and 403 when the caller may not view it, leaving the collection
    unchanged in both cases.  Otherwise it returns the resolved note, which
    the caller may view, and (when the ids of the collection are distinct)
    the total view count grows by exactly one while every other note is
    kept and the ids stay the same. *)
Theorem get_note_outcome (store : list note) (u : option string) (ref : string) :
  NoDup (map _id store) ->
  match get_note store u ref with
  | (NotFound, store') => find_by_id_or_shortid store ref = None /\ store' = store
  | (Forbidden, store') =>
      (exists n, find_by_id_or_shortid store ref = Some n /\ can_view (Some n) u = false)
      /\ store' = store
  | (NoteOk n, store') =>
      find_by_id_or_shortid store ref = Some n /\ can_view (Some n) u = true
      /\ map _id store' = map _id store
      /\ sum_view_counts store' = S (sum_view_counts store)
      /\ (forall m, In m store -> _id m <> _id n -> In m store')
  end.
Proof.
  intros Hnd. unfold get_note.
  destruct (find_by_id_or_shortid store ref) as [n|] eqn:Hf; [|split; reflexivity].
  destruct (can_view (Some n) u) eqn:Hv; simpl.
  - destruct (increment_view_count_one store n Hnd (find_by_id_or_shortid_In _ _ _ Hf))
      as [Hs Hk].
    split; [reflexivity|]. split; [exact Hv|]. split; [apply increment_view_count_ids|].
    split; assumption.
  - split; [exists n; split; [reflexivity|exact Hv]|reflexivity].
Qed.

Lemma get_note_outcome_witness :
  fst (get_note [sample_note] None "abcdefghij") = NoteOk sample_note
  /\ sum_view_counts (snd (get_note [sample_note] None "abcdefghij")) = 1.
Proof.
  pose proof (get_note_outcome [sample_note] None "abcdefghij") as H.
  assert (Hnd : NoDup (map _id [sample_note])) by (constructor; [simpl; tauto|constructor]).
  specialize (H Hnd). destruct (get_note [sample_note] None "abcdefghij") as [r s] eqn:E.
  vm_compute in E. injection E as <- <-.
  destruct H as [_ [_ [_ [Hs _]]]]. split; [reflexivity|exact Hs].
Defined.

(** Route [get_published_note]: the same outcome as [get_note] for the
    note found by short id, then by alias. *)
Theorem get_published_note_outcome (store : list note) (u : option string) (sid : string) :
  NoDup (map _id store) ->
  match get_published_note store u sid with
  | (NoteOk n, store') =>
      In n store /\ can_view (Some n) u = true
      /\ map _id store' = map _id store
      /\ sum_view_counts store' = S (sum_view_counts store)
      /\ (forall m, In m store -> _id m <> _id n -> In m store')
  | (_, store') => store' = store
  end.
Proof.
  intros Hnd. unfold get_published_note.
  assert (Hin : forall n, match find_by_shortid store sid with
                          | Some n => Some n
                          | None => find_by_alias store sid
                          end = Some n -> In n store).
  { intros n. unfold find_by_shortid, find_by_alias, find_one.
    destruct (find (fun n => String.eqb (shortid n) sid) store) as [a|] eqn:H1.
    - intros [= <-]. exact (proj1 (find_some _ _ H1)).
    - intros H2. exact (proj1 (find_some _ _ H2)). }
  destruct (match find_by_shortid store sid with
            | Some n => Some n
            | None => find_by_alias store sid
            end) as [n|] eqn:Hf; [|reflexivity].
  specialize (Hin n eq_refl).
  destruct (can_view (Some n) u) eqn:Hv; simpl; [|reflexivity].
  destruct (increment_view_count_one store n Hnd Hin) as [Hs Hk].
  split; [exact Hin|]. split; [exact Hv|]. split; [apply increment_view_count_ids|].
  split; assumption.
Qed.

Lemma get_published_note_outcome_witness :
  sum_view_counts (snd (get_published_note [sample_note] None "my-notes")) = 1.
Proof.
  pose proof (get_published_note_outcome [sample_note] None "my-notes") as H.
  assert (Hnd : NoDup (map _id [sample_note])) by (constructor; [simpl; tauto|constructor]).
  specialize (H Hnd). destruct (get_published_note [sample_note] None "my-notes") as [r s] eqn:E.
  vm_compute in E. injection E as <- <-.
  destruct H as [_ [_ [_ [Hs _]]]]. exact Hs.
Defined.

(** Updating a note. *)

Lemma replace_first_map {B} (g : note -> B) (q : note -> bool) (f : note -> note)
  (store : list note) :
  (forall m, g (f m) = g m) -> map g (replace_first q f store) = map g store.
Proof.
  intros Hg. induction store as [|m rest IH]; [reflexivity|].
  simpl. destruct (q m); simpl; [rewrite Hg; reflexivity|rewrite IH; reflexivity].
Qed.

Lemma update_map {B} (g : note -> B) (store : list note) (oid : string)
  (upd : note_update) (u : option string) :
  (forall m, g (apply_update m upd u) = g m) ->
  map g (snd (update store oid upd u)) = map g store.
Proof.
  intros Hg. unfold update.
  destruct (find_one _ store); [apply replace_first_map; exact Hg|reflexivity].
Qed.

Lemma update_note_map {B} (g : note -> B) (store : list note) (u : option string)
  (ref : string) (data : note_request) :
  (forall n, find_by_id_or_shortid store ref = Some n ->
     forall m, g (apply_update m
                  (mk_update (req_title data) (req_content data)
                     (if is_owner (Some n) u then req_permission data else None)
                     (if is_owner (Some n) u then req_alias data else None)) u) = g m) ->
  map g (snd (update_note store u ref data)) = map g store.
Proof.
  intros Hg. unfold update_note.
  destruct (find_by_id_or_shortid store ref) as [n|] eqn:Hf; [|reflexivity].
  destruct (negb (can_edit (Some n) u)); [reflexivity|].
  pose proof (update_map g store (_id n)
                (mk_update (req_title data) (req_content data)
                   (if is_owner (Some n) u then req_permission data else None)
                   (if is_owner (Some n) u then req_alias data else None)) u
                (Hg n eq_refl)) as Hm.
  destruct (update store (_id n) _ u) as [[n'|] s']; simpl in *; [exact Hm|reflexivity].
Qed.

(** Route [update_note] never changes the id, short id, owner or view
    count of any note, whoever the caller and whatever the body. *)
Theorem update_note_fixed_fields (store : list note) (u : option string) (ref : string)
  (data : note_request) :
  map (fun n => (_id n, shortid n, owner_id n, view_count n))
      (snd (update_note store u ref data))
  = map (fun n => (_id n, shortid n, owner_id n, view_count n)) store.
Proof. apply update_note_map. intros n _ m. reflexivity. Qed.

(** Route [update_note] changes no permission and no alias when the caller
    is not the owner of the note the reference resolves to (a non-owner
    allowed to edit changes title and content only). *)
Theorem update_note_non_owner (store : list note) (u : option string) (ref : string)
  (data : note_request) (n : note) :
  find_by_id_or_shortid store ref = Some n ->
  is_owner (Some n) u = false ->
  map (fun m => (permission m, alias m)) (snd (update_note store u ref data))
  = map (fun m => (permission m, alias m)) store.
Proof.
  intros Hf Ho. apply update_note_map. intros n' Hf' m.
  rewrite Hf in Hf'. injection Hf' as <-. rewrite Ho. reflexivity.
Qed.

Lemma update_note_non_owner_witness :
  let n := mk_note "0123456789abcdef01234567" "abcdefghij" (Some "a") "t" "c"
                   (Some "u1") (Some (JStr "editable")) 0 None in
  let data := mk_request None (Some "new") (Some (JStr "freely")) (Some None) in
  map (fun m => (permission m, alias m)) (snd (update_note [n] (Some "u2") "abcdefghij" data))
  = [(Some (JStr "editable"), Some "a")].
Proof.
  intros n data.
  exact (update_note_non_owner [n] (Some "u2") "abcdefghij" data n eq_refl eq_refl).
Defined.

(** Route [update_note] changes the collection only when it answers 200,
    and it answers 200 only when the reference resolves to a note the
    caller may edit. *)
Theorem update_note_status (store : list note) (u : option string) (ref : string)
  (data : note_request) :
  (fst (fst (update_note store u ref data)) <> 200 -> snd (update_note store u ref data) = store)
  /\ (fst (fst (update_note store u ref data)) = 200 ->
      exists n, find_by_id_or_shortid store ref = Some n /\ can_edit (Some n) u = true).
Proof.
  unfold update_note.
  destruct (find_by_id_or_shortid store ref) as [n|] eqn:Hf;
    [|simpl; split; [reflexivity|discriminate]].
  destruct (can_edit (Some n) u) eqn:He; simpl; [|split; [reflexivity|discriminate]].
  destruct (update store (_id n) _ u) as [[n'|] s']; simpl.
  - split; [intros H; contradiction|]. intros _. exists n. split; [reflexivity|exact He].
  - split; [reflexivity|discriminate].
Qed.

Lemma update_note_status_witness :
  snd (update_note [sample_note] None "abcdefghij" (mk_request (Some "x") None None None))
  = [sample_note].
Proof.
  apply (proj1 (update_note_status [sample_note] None "abcdefghij"
                  (mk_request (Some "x") None None None))).
  vm_compute. discriminate.
Defined.

(** The title read back from new content. *)

Lemma split_on_app (sep : nat) (l1 : list ascii) (c : ascii) (l2 : list ascii) :
  forallb (fun x => negb (is_char sep x)) l1 = true -> is_char sep c = true ->
  split_on sep (l1 ++ c :: l2) = l1 :: split_on sep l2.
Proof.
  intros H1 Hc. induction l1 as [|x l1 IH]; simpl; [rewrite Hc; reflexivity|].
  simpl in H1. apply andb_true_iff in H1 as [Hx H1].
  apply negb_true_iff in Hx. rewrite Hx, (IH H1). reflexivity.
Qed.

(** [Note.update] reads the title of a note created with empty content
    back from its default content: when the title has no newline and no
    surrounding whitespace, saving that content unchanged, without a
    title, keeps the title. *)
Theorem default_content_title (sid oid : string) (o : option string)
  (t p : string) (a : option string) (n : note) :
  create sid (Some oid) o t "" p a = Some n ->
  forallb (fun c => negb (is_char NL c)) (list_ascii_of_string t) = true ->
  py_strip (list_ascii_of_string t) = list_ascii_of_string t ->
  derive_title (content n) = Some t
  /\ update_data_title (mk_update None (Some (content n)) None None) = Some t.
Proof.
  intros Hc Hnl Hs. unfold create in Hc. simpl in Hc. injection Hc as <-.
  assert (Hd : derive_title ("# " ++ t ++ String (ascii_of_nat 10)
                 (String (ascii_of_nat 10) "Start writing your markdown here..."))%string
               = Some t).
  { unfold derive_title. cbn [list_ascii_of_string String.append].
    rewrite list_ascii_of_string_app. cbn [list_ascii_of_string].
    rewrite app_comm_cons, app_comm_cons.
    rewrite (split_on_app NL (ascii_of_nat 35 :: ascii_of_nat 32 :: list_ascii_of_string t)
               (ascii_of_nat 10)); [|simpl; exact Hnl|reflexivity].
    cbn [find]. replace (starts_hash_space _) with true by reflexivity.
    cbn [skipn]. rewrite Hs. rewrite string_of_list_ascii_of_string. reflexivity. }
  cbn [content]. split; [exact Hd|]. unfold update_data_title. cbn. exact Hd.
Qed.

Lemma default_content_title_witness :
  derive_title (or_else (option_map content (create "abcdefghij" (Some "0123456789abcdef01234567")
                                               None "Ideas" "" "freely" None)) "")
  = Some "Ideas".
Proof.
  pose proof (default_content_title "abcdefghij" "0123456789abcdef01234567" None "Ideas"
                "freely" None) as H.
  destruct (create "abcdefghij" (Some "0123456789abcdef01234567") None "Ideas" "" "freely" None)
    as [n|] eqn:E; [|discriminate].
  destruct (H n eq_refl ltac:(vm_compute; reflexivity) ltac:(vm_compute; reflexivity))
    as [Hd _].
  cbn [option_map or_else]. exact Hd.
Defined.

(** Deleting. *)

Lemma remove_first_by_split {A} (q : A -> bool) (l : list A) :
  existsb q l = true ->
  exists pre m post, l = pre ++ m :: post /\ q m = true /\ remove_first_by q l = pre ++ post.
Proof.
  induction l as [|x l IH]; intros H; [discriminate|].
  change (q x || existsb q l = true) in H.
  destruct (q x) eqn:Hx.
  - exists [], x, l. split; [reflexivity|]. split; [exact Hx|]. cbn. rewrite Hx. reflexivity.
  - destruct (IH H) as (pre & m & post & H1 & H2 & H3).
    exists (x :: pre), m, post. split; [rewrite H1; reflexivity|]. split; [exact H2|].
    cbn. rewrite Hx. fold (remove_first_by q l). rewrite H3. reflexivity.
Qed.

Lemma remove_first_eq (q : note -> bool) (store : list note) :
  remove_first q store = remove_first_by q store.
Proof. induction store as [|m rest IH]; simpl; [reflexivity|]. rewrite IH. reflexivity. Qed.

Lemma is_owner_some (n : note) (uid : string) :
  is_owner (Some n) (Some uid) = true -> owner_id n = Some uid /\ uid <> "".
Proof.
  unfold is_owner. simpl. destruct (String.eqb_spec uid ""); simpl; [discriminate|].
  intros H. split; [apply opt_str_eqb_some, H | assumption].
Qed.

(** Route [delete_note] answers 200 only to the owner of the note the
    reference resolves to (a non-empty id equal to its owner id), and then
    exactly one note with that note's id is removed and every other note
    is kept in order; with any other answer the collection is unchanged. *)
Theorem delete_note_outcome (store : list note) (uid ref : string) :
  if fst (delete_note store uid ref) =? 200 then
    exists n pre m post,
      find_by_id_or_shortid store ref = Some n /\ owner_id n = Some uid /\ uid <> ""
      /\ store = pre ++ m :: post /\ _id m = _id n
      /\ snd (delete_note store uid ref) = pre ++ post
  else snd (delete_note store uid ref) = store.
Proof.
  unfold delete_note.
  destruct (find_by_id_or_shortid store ref) as [n|] eqn:Hf; [|reflexivity].
  destruct (is_owner (Some n) (Some uid)) eqn:Ho; simpl; [|reflexivity].
  unfold delete. destruct (existsb (fun m => String.eqb (_id m) (_id n)) store) eqn:Hx;
    simpl; [|reflexivity].
  destruct (remove_first_by_split _ _ Hx) as (pre & m & post & H1 & H2 & H3).
  destruct (is_owner_some n uid Ho) as [Hown Hu].
  exists n, pre, m, post. rewrite remove_first_eq, H3.
  apply String.eqb_eq in H2. repeat split; assumption.
Qed.

(** [Note.delete_by_owner] removes exactly the notes of that owner. *)
Theorem delete_by_owner_spec (store : list note) (owner : string) (n : note) :
  In n (delete_by_owner store owner) <-> In n store /\ owner_id n <> Some owner.
Proof.
  unfold delete_by_owner. rewrite filter_In, negb_true_iff.
  split; intros [H1 H2]; split; try exact H1.
  - intros He. apply opt_str_eqb_some in He. congruence.
  - destruct (opt_str_eqb (owner_id n) (Some owner)) eqn:He; [|reflexivity].
    apply opt_str_eqb_some in He. contradiction.
Qed.

(** Route [delete_account] removes every note of the account even when
    the user document cannot be deleted (answer 500, users unchanged);
    with 200, exactly one user, the one whose id the caller's id parses
    to, is removed. *)
Theorem delete_account_outcome (notes : list note) (users : list user) (uid : string) :
  let '(code, notes', users') := delete_account notes users uid in
  (forall n, In n notes' <-> In n notes /\ owner_id n <> Some uid)
  /\ (code <> 200 -> code = 500 /\ users' = users)
  /\ (code = 200 -> exists pre u post, users = pre ++ u :: post
                      /\ object_id uid = Some (u_id u) /\ users' = pre ++ post).
Proof.
  unfold delete_account, user_delete.
  assert (Hn := fun n => delete_by_owner_spec notes uid n).
  destruct (object_id uid) as [oid|] eqn:Ho.
  - destruct (existsb (fun u => String.eqb (u_id u) oid) users) eqn:Hx.
    + split; [exact Hn|]. split; [intros H; contradiction|]. intros _.
      destruct (remove_first_by_split _ _ Hx) as (pre & m & post & H1 & H2 & H3).
      apply String.eqb_eq in H2. subst oid. exists pre, m, post. auto.
    + split; [exact Hn|]. split; [auto|discriminate].
  - split; [exact Hn|]. split; [auto|discriminate].
Qed.

Lemma delete_account_outcome_witness :
  let '(code, notes', users') := delete_account [sample_note] [] "u1" in
  code = 500 /\ notes' = [] /\ users' = [].
Proof.
  pose proof (delete_account_outcome [sample_note] [] "u1") as H.
  destruct (delete_account [sample_note] [] "u1") as [[code notes'] users'] eqn:E.
  vm_compute in E. injection E as <- <- <-.
  destruct H as [_ [H _]]. destruct (H ltac:(discriminate)) as [H1 H2].
  split; [exact H1|]. split; [reflexivity|exact H2].
Defined.

(** Listings. *)

Lemma insert_desc_In (key : note -> nat) (x y : note) (l : list note) :
  In y (insert_desc key x l) <-> x = y \/ In y l.
Proof.
  induction l as [|z l IH]; simpl; [tauto|].
  destruct (key z <? key x); simpl; [tauto|]. rewrite IH. tauto.
Qed.

Lemma sort_desc_In (key : note -> nat) (y : note) (l : list note) :
  In y (sort_desc key l) <-> In y l.
Proof.
  induction l as [|x l IH]; simpl; [tauto|]. rewrite insert_desc_In, IH. firstorder.
Qed.

Lemma insert_desc_sorted (key : note -> nat) (x : note) (l : list note) :
  Sorted (fun a b => key b <= key a) l ->
  Sorted (fun a b => key b <= key a) (insert_desc key x l).
Proof.
  induction l as [|z l IH]; intros Hs; simpl; [repeat constructor|].
  apply Sorted_inv in Hs as [Hl Hhd].
  destruct (Nat.ltb_spec (key z) (key x)).
  - constructor; [constructor; assumption|]. constructor. lia.
  - constructor; [exact (IH Hl)|].
    destruct l as [|w l]; simpl; [constructor; lia|].
    apply HdRel_inv in Hhd.
    destruct (key w <? key x); constructor; lia.
Qed.

Lemma sort_desc_sorted (key : note -> nat) (l : list note) :
  Sorted (fun a b => key b <= key a) (sort_desc key l).
Proof.
  induction l as [|x l IH]; simpl; [constructor|]. apply insert_desc_sorted, IH.
Qed.

Lemma limit_props (key : note -> nat) (k : nat) (l : list note) :
  Sorted (fun a b => key b <= key a) l ->
  (forall y, In y (limit k l) -> In y l)
  /\ Sorted (fun a b => key b <= key a) (limit k l)
  /\ (0 < k -> length (limit k l) <= k)
  /\ (k = 0 -> limit k l = l).
Proof.
  intros Hs. unfold limit. destruct (Nat.eqb_spec k 0).
  - split; [auto|]. split; [exact Hs|]. split; [lia|reflexivity].
  - split; [intros y Hy; rewrite <- (firstn_skipn k l); apply in_or_app; left; exact Hy|].
    split; [|split; [intros _; apply firstn_le_length|intros; contradiction]].
    apply StronglySorted_Sorted, StronglySorted_firstn.
    apply Sorted_StronglySorted; [|exact Hs]. intros a b c H1 H2. lia.
Qed.

Lemma public_permission_view (ps : list string) (n : note) :
  (forall p, In p ps -> In p ["freely"; "editable"; "protected"]) ->
  permission_in ps n = true ->
  can_view (Some n) None = true.
Proof.
  intros Hps. unfold permission_in, can_view, get_permission.
  destruct (permission n) as [p|]; [|discriminate].
  destruct p as [| | |p|es|]; intros Hm; try discriminate; [|reflexivity].
  apply mem_In, Hps in Hm.
  destruct Hm as [<-|[<-|[<-|[]]]]; reflexivity.
Qed.

(** [Note.find_public_notes(limit)]: every note listed is a stored note
    whose permission matches the query (freely, editable or protected, or
    an array holding one of them) and which anyone, signed in or not, may
    view; the list is in descending [updated_at] order and has at most
    [limit] notes, except that a limit of 0 lists every matching note. *)
Theorem find_public_notes_spec (updated_at : note -> nat) (store : list note) (lim : nat) :
  (forall n, In n (find_public_notes updated_at store lim) ->
     In n store
     /\ permission_in ["freely"; "editable"; "protected"] n = true
     /\ can_view (Some n) None = true)
  /\ Sorted (fun a b => updated_at b <= updated_at a) (find_public_notes updated_at store lim)
  /\ (0 < lim -> length (find_public_notes updated_at store lim) <= lim)
  /\ (lim = 0 -> forall n, In n store ->
        permission_in ["freely"; "editable"; "protected"] n = true ->
        In n (find_public_notes updated_at store 0)).
Proof.
  unfold find_public_notes.
  set (sel := filter (permission_in ["freely"; "editable"; "protected"]) store).
  destruct (limit_props updated_at lim (sort_desc updated_at sel) (sort_desc_sorted _ _))
    as [H1 [H2 [H3 _]]].
  split; [|split; [exact H2|split; [exact H3|]]].
  - intros n Hn. apply H1, sort_desc_In, filter_In in Hn as [Hin Hp].
    split; [exact Hin|]. split; [exact Hp|].
    apply (public_permission_view ["freely"; "editable"; "protected"] n); [auto|exact Hp].
  - intros _ n Hin Hp. unfold limit. simpl. apply sort_desc_In, filter_In. auto.
Qed.

Lemma find_public_notes_spec_witness :
  length (find_public_notes view_count [sample_note; sample_note; sample_note] 2) <= 2
  /\ In sample_note (find_public_notes view_count [sample_note] 0)
  /\ can_view (Some (mk_note "0123456789abcdef01234567" "abcdefghij" None "t" "c"
                   (Some "u1") (Some (JArr [JStr "freely"; JStr "private"])) 0 None)) None
     = true.
Proof.
  destruct (find_public_notes_spec view_count [sample_note; sample_note; sample_note] 2)
    as [_ [_ [H _]]].
  destruct (find_public_notes_spec view_count [sample_note] 0) as [_ [_ [_ H']]].
  split; [apply H; lia|]. split; [apply H'; [reflexivity|left; reflexivity|reflexivity]|].
  apply (proj1 (find_public_notes_spec view_count
                  [mk_note "0123456789abcdef01234567" "abcdefghij" None "t" "c"
                     (Some "u1") (Some (JArr [JStr "freely"; JStr "private"])) 0 None] 0)).
  vm_compute. left. reflexivity.
Defined.

(** The notes route [get_user_profile] lists for a user: stored notes
    owned by that user that anyone may view, at most 50, in descending
    [updated_at] order. *)
Theorem user_public_notes_spec (updated_at : note -> nat) (store : list note) (uid : string) :
  (forall n, In n (user_public_notes updated_at store uid) ->
     In n store /\ owner_id n = Some uid /\ can_view (Some n) None = true)
  /\ Sorted (fun a b => updated_at b <= updated_at a) (user_public_notes updated_at store uid)
  /\ length (user_public_notes updated_at store uid) <= 50.
Proof.
  unfold user_public_notes.
  set (sel := filter (fun n => opt_str_eqb (owner_id n) (Some uid)
                               && permission_in ["protected"; "editable"; "freely"] n) store).
  destruct (limit_props updated_at 50 (sort_desc updated_at sel) (sort_desc_sorted _ _))
    as [H1 [H2 [H3 _]]].
  split; [|split; [exact H2|apply H3; lia]].
  intros n Hn. apply H1, sort_desc_In, filter_In in Hn as [Hin Hp].
  apply andb_true_iff in Hp as [Ho Hp]. split; [exact Hin|].
  split; [apply opt_str_eqb_some, Ho|].
  apply (public_permission_view ["protected"; "editable"; "freely"] n); [|exact Hp].
  intros p [<-|[<-|[<-|[]]]]; simpl; tauto.
Qed.

Lemma user_public_notes_spec_witness :
  In sample_note (user_public_notes view_count [sample_note] "u1")
  /\ owner_id sample_note = Some "u1".
Proof.
  split; [vm_compute; left; reflexivity|].
  apply (proj1 (user_public_notes_spec view_count [sample_note] "u1") sample_note).
  vm_compute. left. reflexivity.
Defined.

(** History removal. *)

Lemma length_filter_le {A} (p : A -> bool) (l : list A) : length (filter p l) <= length l.
Proof. induction l as [|x l IH]; simpl; [lia|]. destruct (p x); simpl; lia. Qed.

(** [User.remove_from_history] keeps the shape of a history (one entry per
    note id, at most 100, most recent first) and leaves no entry for the
    removed note; the other entries stay in order. *)
Theorem remove_from_history_ok (h : list history_entry) (note_id : string) :
  history_ok h ->
  history_ok (remove_from_history h note_id)
  /\ ~ In note_id (map entry_note_id (remove_from_history h note_id))
  /\ (forall e, In e h -> entry_note_id e <> note_id -> In e (remove_from_history h note_id)).
Proof.
  intros [Hnd [Hlen Hs]]. unfold remove_from_history.
  split; [split; [|split]|split].
  - apply NoDup_map_filter, Hnd.
  - pose proof (length_filter_le (fun e => negb (String.eqb (entry_note_id e) note_id)) h). lia.
  - apply StronglySorted_Sorted, StronglySorted_filter.
    apply Sorted_StronglySorted; [exact recent_first_trans|exact Hs].
  - intros Hin. apply in_map_iff in Hin as [e [He Hin]].
    apply filter_In in Hin as [_ Hin]. rewrite He, String.eqb_refl in Hin. discriminate.
  - intros e He Hne. apply filter_In. split; [exact He|].
    apply negb_true_iff, String.eqb_neq, Hne.
Qed.

Lemma remove_from_history_ok_witness :
  remove_from_history [mk_entry "n2" 5; mk_entry "n1" 3] "n2" = [mk_entry "n1" 3]
  /\ history_ok (remove_from_history [mk_entry "n2" 5; mk_entry "n1" 3] "n2").
Proof.
  split; [reflexivity|].
  apply (remove_from_history_ok [mk_entry "n2" 5; mk_entry "n1" 3] "n2").
  split; [|split].
  - simpl. constructor; [simpl; intuition discriminate|]. constructor; [simpl; tauto|constructor].
  - simpl. lia.
  - constructor; [constructor; [constructor|constructor]|].
    constructor. unfold recent_first. simpl. lia.
Defined.

(** Description. *)

Lemma rsplit_head_length (s : list ascii) : length (rsplit_head s) <= length s.
Proof.
  destruct (in_dec ascii_dec (chr SPACE) s) as [Hin|Hnot].
  - destruct (proj1 (rsplit_head_spec s) Hin) as [pre [rest [Hs [_ Hh]]]].
    rewrite Hh, Hs, length_app. simpl. lia.
  - rewrite (proj2 (rsplit_head_spec s) Hnot). lia.
Qed.

(** [Note.generate_description(content, max_length)] is never longer than
    [max_length] characters plus the three of the ellipsis. *)
Theorem generate_description_length (content : string) (max_length : nat) :
  length (list_ascii_of_string (generate_description content max_length)) <= max_length + 3.
Proof.
  unfold generate_description. rewrite list_ascii_of_string_of_list_ascii.
  destruct (Nat.ltb_spec max_length (length (description_text content))).
  - rewrite length_app. simpl.
    pose proof (rsplit_head_length (firstn max_length (description_text content))).
    pose proof (firstn_le_length max_length (description_text content)). lia.
  - lia.
Qed.

Definition good_word (w : list ascii) : Prop :=
  w <> [] /\ Forall (fun x => is_space x = false) w.

Lemma split_ws_acc_good (s cur : list ascii) :
  Forall (fun x => is_space x = false) cur -> Forall good_word (split_ws_acc s cur).
Proof.
  revert cur. induction s as [|c r IH]; intros cur Hcur; simpl.
  - destruct cur as [|x cur']; simpl; [constructor|].
    constructor; [|constructor]. split.
    + intros H. apply (f_equal (@length ascii)) in H. rewrite length_app in H. simpl in H. lia.
    + change (rev cur' ++ [x]) with (rev (x :: cur')). apply Forall_rev. exact Hcur.
  - destruct (is_space c) eqn:Hc.
    + destruct cur as [|x cur']; simpl; [apply IH; constructor|].
      constructor; [|apply IH; constructor]. split.
      * intros H. apply (f_equal (@length ascii)) in H. rewrite length_app in H. simpl in H. lia.
      * change (rev cur' ++ [x]) with (rev (x :: cur')). apply Forall_rev. exact Hcur.
    + apply IH. constructor; assumption.
Qed.

Lemma join_space_normalized (ws : list (list ascii)) :
  Forall good_word ws ->
  (forall x, In x (join_space ws) -> is_space x = true -> x = chr SPACE)
  /\ (forall post, join_space ws <> chr SPACE :: post)
  /\ (forall pre, join_space ws <> pre ++ [chr SPACE])
  /\ (forall pre post, join_space ws <> pre ++ chr SPACE :: chr SPACE :: post).
Proof.
  induction ws as [|w ws IH]; intros Hg.
  - simpl. split; [intros x []|]. split; [discriminate|].
    split; intros; [destruct pre; discriminate|destruct pre; discriminate].
  - apply Forall_cons_iff in Hg as [[Hw Hws] Hg].
    assert (Hnosp : ~ In (chr SPACE) w).
    { intros Hin. rewrite Forall_forall in Hws. specialize (Hws _ Hin). discriminate. }
    assert (Hlead : forall post, w ++ [] <> chr SPACE :: post /\
                    forall rest, w ++ rest <> chr SPACE :: post).
    { intros post. destruct w as [|a w']; [contradiction|].
      split; intros; simpl; intros [= -> _]; apply Hnosp; left; reflexivity. }
    destruct ws as [|w' ws'].
    + simpl. split; [intros x Hx Hsp; rewrite Forall_forall in Hws;
                     rewrite (Hws x Hx) in Hsp; discriminate|].
      split; [intros post H; apply (proj1 (Hlead post)); rewrite app_nil_r; exact H|].
      split.
      * intros pre H. apply Hnosp. rewrite H. apply in_or_app. right. left. reflexivity.
      * intros pre post H. apply Hnosp. rewrite H. apply in_or_app. right. left. reflexivity.
    + destruct (IH Hg) as [J1 [J2 [J3 J4]]].
      change (join_space (w :: w' :: ws')) with (w ++ chr SPACE :: join_space (w' :: ws')).
      set (J := join_space (w' :: ws')) in *.
      assert (HJ : J <> []).
      { apply Forall_cons_iff in Hg as [[Hw' _] _]. unfold J. simpl.
        destruct ws'; destruct w'; try contradiction; discriminate. }
      split; [|split; [|split]].
      * intros x Hx Hsp. apply in_app_or in Hx as [Hx|[<-|Hx]]; [|reflexivity|exact (J1 x Hx Hsp)].
        rewrite Forall_forall in Hws. rewrite (Hws x Hx) in Hsp. discriminate.
      * intros post. exact (proj2 (Hlead post) _).
      * intros pre H. destruct (exists_last HJ) as [J' [y HJ']].
        rewrite HJ', app_comm_cons, app_assoc in H. apply app_inj_tail in H as [_ Hy].
        apply (J3 J'). rewrite HJ', Hy. reflexivity.
      * intros pre post H. apply app_eq_app in H as [l [[H1 H2]|[H1 H2]]].
        -- destruct l as [|a l].
           ++ injection H2 as H2. apply (J2 post). symmetry. exact H2.
           ++ injection H2 as <- _. apply Hnosp. rewrite H1. apply in_or_app. right. left. reflexivity.
        -- destruct l as [|a l].
           ++ injection H2 as H2. apply (J2 post). exact H2.
           ++ injection H2 as <- H2. apply (J4 l post). exact H2.
Qed.

(** The description text is whitespace-normalised: its only whitespace
    character is the space, and it neither starts nor ends with a space
    nor holds two spaces in a row. *)
Theorem description_text_normalized (content : string) :
  (forall x, In x (description_text content) -> is_space x = true -> x = chr SPACE)
  /\ (forall post, description_text content <> chr SPACE :: post)
  /\ (forall pre, description_text content <> pre ++ [chr SPACE])
  /\ (forall pre post, description_text content <> pre ++ chr SPACE :: chr SPACE :: post).
Proof.
  unfold description_text. apply join_space_normalized. unfold split_ws.
  apply split_ws_acc_good. constructor.
Qed.

Lemma description_text_normalized_witness :
  description_text ("  Hello" ++ String (chr 9) "  *world*  ")%string
  = list_ascii_of_string "Hello world"
  /\ ~ In (chr 9) (description_text ("  Hello" ++ String (chr 9) "  *world*  ")%string).
Proof.
  split; [vm_compute; reflexivity|]. intros Hin.
  pose proof (proj1 (description_text_normalized ("  Hello" ++ String (chr 9) "  *world*  ")%string)
                (chr 9) Hin eq_refl) as H.
  discriminate H.
Defined.

(** Creating a note. *)



(** Images. *)

(** Route [upload_image]: the collection changes only with answer 201,
    and then by one appended image whose type is PNG, JPEG, GIF or WebP,
    whose file name is not empty, whose size is the length of its data and
    at most 5 MiB, and whose uploader is the caller.  A request whose body
    is longer than 16 MiB ([MAX_CONTENT_LENGTH]) is refused with 413; a
    file larger than 5 MiB is refused with 400 or 413. *)
Theorem upload_image_outcome (store : list image) (u : option string)
  (req : upload_request) (inserted : option string) :
  (fst (upload_image store u req inserted) <> 201 -> snd (upload_image store u req inserted) = store)
  /\ (fst (upload_image store u req inserted) = 201 ->
      exists im, snd (upload_image store u req inserted) = store ++ [im]
        /\ In (content_type im) allowed_types /\ filename im <> ""
        /\ size im = N.of_nat (String.length (img_data im))
        /\ (size im <= max_image_size)%N
        /\ img_data im = up_data req /\ uploaded_by im = u)
  /\ ((MAX_CONTENT_LENGTH < content_length req)%N ->
      fst (upload_image store u req inserted) = 413)
  /\ (fst (upload_image store u req inserted) = 413 ->
      (MAX_CONTENT_LENGTH < content_length req)%N \/ form_too_large req = true)
  /\ ((max_image_size < N.of_nat (String.length (up_data req)))%N ->
      fst (upload_image store u req inserted) = 400
      \/ fst (upload_image store u req inserted) = 413).
Proof.
  unfold upload_image.
  destruct (N.ltb_spec MAX_CONTENT_LENGTH (content_length req)) as [Hc|Hc]; cbn [orb].
  { split; [reflexivity|]. split; [discriminate|]. split; [reflexivity|].
    split; [intros _; left; exact Hc|intros _; right; reflexivity]. }
  destruct (form_too_large req) eqn:Hf.
  { split; [reflexivity|]. split; [discriminate|]. split; [intros; lia|].
    split; [intros _; right; reflexivity|intros _; right; reflexivity]. }
  destruct (has_image req);
    [|split; [reflexivity|split; [discriminate|split; [intros; lia|
       split; [intros Hk; discriminate Hk|intros _; left; reflexivity]]]]].
  destruct (String.eqb_spec (up_filename req) "");
    [split; [reflexivity|split; [discriminate|split; [intros; lia|
       split; [intros Hk; discriminate Hk|intros _; left; reflexivity]]]]|].
  destruct (mem (up_content_type req) allowed_types) eqn:Hm;
    [|split; [reflexivity|split; [discriminate|split; [intros; lia|
       split; [intros Hk; discriminate Hk|intros _; left; reflexivity]]]]].
  destruct (N.ltb_spec max_image_size (N.of_nat (String.length (up_data req)))) as [Hlt|Hle].
  - split; [reflexivity|split; [discriminate|split; [intros; lia|
       split; [intros Hk; discriminate Hk|intros _; left; reflexivity]]]].
  - destruct inserted as [oid|].
    + split; [intros Hn; exfalso; apply Hn; reflexivity|].
      split; [|split; [intros; lia|split; [intros Hk; discriminate Hk|intros; lia]]].
      intros _. eexists. split; [reflexivity|].
      split; [apply (proj1 (mem_In _ _) Hm)|]. cbn. repeat split; auto.
    + split; [reflexivity|split; [discriminate|split; [intros; lia|
       split; [intros Hk; discriminate Hk|intros; lia]]]].
Qed.

Lemma upload_image_outcome_witness :
  (exists im, snd (upload_image [] (Some "u1")
                     (mk_upload 200 false true "a.png" "image/png" "PNG" None)
                     (Some "0123456789abcdef01234567")) = [im]
              /\ (size im <= max_image_size)%N)
  /\ fst (upload_image [] (Some "u1")
          (mk_upload (17 * 1024 * 1024) false true "a.png" "image/png" "PNG" None)
          (Some "0123456789abcdef01234567")) = 413.
Proof.
  split.
  - destruct (proj1 (proj2 (upload_image_outcome [] (Some "u1")
                              (mk_upload 200 false true "a.png" "image/png" "PNG" None)
                              (Some "0123456789abcdef01234567"))) eq_refl)
      as [im [H1 [_ [_ [_ [H5 _]]]]]].
    exists im. split; [exact H1|exact H5].
  - apply (proj1 (proj2 (proj2 (upload_image_outcome [] (Some "u1")
             (mk_upload (17 * 1024 * 1024) false true "a.png" "image/png" "PNG" None)
             (Some "0123456789abcdef01234567"))))).
    vm_compute. reflexivity.
Defined.

(** Route [delete_image] answers 200 only to the uploader of the image
    (so an image uploaded anonymously can never be deleted), and then
    exactly one image with that id is removed; with any other answer the
    collection is unchanged. *)
Theorem delete_image_outcome (store : list image) (uid image_id : string) :
  (if fst (delete_image store uid image_id) =? 200 then
     exists im pre m post,
       image_find_by_id store image_id = Some im /\ uploaded_by im = Some uid
       /\ store = pre ++ m :: post /\ object_id image_id = Some (img_id m)
       /\ snd (delete_image store uid image_id) = pre ++ post
   else snd (delete_image store uid image_id) = store)
  /\ (forall im, image_find_by_id store image_id = Some im -> uploaded_by im = None ->
        delete_image store uid image_id = (403, store)).
Proof.
  unfold delete_image. split.
  - destruct (image_find_by_id store image_id) as [im|] eqn:Hf; [|reflexivity].
    destruct (opt_str_eqb (uploaded_by im) (Some uid)) eqn:Hu; simpl; [|reflexivity].
    unfold image_delete. destruct (object_id image_id) as [oid|] eqn:Ho; [|reflexivity].
    destruct (existsb (fun im => String.eqb (img_id im) oid) store) eqn:Hx; [|reflexivity].
    destruct (remove_first_by_split _ _ Hx) as (pre & m & post & H1 & H2 & H3).
    apply String.eqb_eq in H2. apply opt_str_eqb_some in Hu.
    exists im, pre, m, post. rewrite H2. auto.
  - intros im Hf Hn. rewrite Hf, Hn. reflexivity.
Qed.

Lemma delete_image_outcome_witness :
  let im := mk_image "0123456789abcdef01234567" "a.png" "image/png" "PNG" 3 None None in
  delete_image [im] "u1" "0123456789abcdef01234567" = (403, [im]).
Proof.
  intros im. apply (proj2 (delete_image_outcome [im] "u1" "0123456789abcdef01234567") im);
    reflexivity.
Defined.

(** Users. *)

Lemma find_none_all {A} (q : A -> bool) (l : list A) :
  find q l = None -> forall x, In x l -> q x = false.
Proof.
  induction l as [|y l IH]; simpl; [intros _ x []|].
  destruct (q y) eqn:Hy; [discriminate|]. intros H x [<-|Hx]; [exact Hy|exact (IH H x Hx)].
Qed.

Lemma find_app_none {A} (q : A -> bool) (l : list A) (x : A) :
  find q l = None -> q x = true -> find q (l ++ [x]) = Some x.
Proof.
  induction l as [|y l IH]; simpl; intros H Hx; [rewrite Hx; reflexivity|].
  destruct (q y); [discriminate|]. exact (IH H Hx).
Qed.

(** Route [register]: the collection changes only with answer 201, and
    then by one appended user; its e-mail is the lower-cased e-mail of the
    request, which no stored user had (nor, when a username was given, its
    username), and looking it up by any e-mail with the same lower-case
    form finds it.  Registration therefore keeps stored e-mails distinct. *)
Theorem register_outcome (store : list user) (data : option auth_request)
  (hashed : string) (t1 t2 : nat) (inserted : option string) :
  (fst (register store data hashed t1 t2 inserted) <> 201 -> snd (register store data hashed t1 t2 inserted) = store)
  /\ (fst (register store data hashed t1 t2 inserted) = 201 ->
      exists d e u,
        data = Some d /\ a_email d = Some e /\ find_by_email store e = None
        /\ (truthy (a_username d) = true -> find_by_username store (a_username d) = None)
        /\ snd (register store data hashed t1 t2 inserted) = store ++ [u]
        /\ email u = py_lower_string e /\ username u = a_username d
        /\ (forall e', py_lower_string e' = py_lower_string e ->
              find_by_email (snd (register store data hashed t1 t2 inserted)) e' = Some u))
  /\ (NoDup (map email store) -> NoDup (map email (snd (register store data hashed t1 t2 inserted)))).
Proof.
  unfold register.
  destruct data as [d|]; [|split; [reflexivity|split; [discriminate|auto]]].
  destruct (a_email d) as [e|] eqn:He; [|split; [reflexivity|split; [discriminate|auto]]].
  destruct (a_password d) as [pw|]; [|split; [reflexivity|split; [discriminate|auto]]].
  destruct (negb (truthy (Some e)) || negb (truthy (Some pw)));
    [split; [reflexivity|split; [discriminate|auto]]|].
  destruct (find_by_email store e) as [x|] eqn:Hfe;
    [split; [reflexivity|split; [discriminate|auto]]|].
  cbn [is_not_none negb].
  destruct (truthy (a_username d) && is_not_none (find_by_username store (a_username d))) eqn:Hn;
    [split; [reflexivity|split; [discriminate|auto]]|].
  destruct (user_create e hashed (a_username d) t1 t2 inserted) as [u|] eqn:Hc;
    [|split; [reflexivity|split; [discriminate|auto]]].
  unfold user_create in Hc. destruct inserted as [oid|]; [|discriminate].
  injection Hc as <-. cbn [fst snd].
  split; [intros Hne; exfalso; apply Hne; reflexivity|]. split.
  - intros _. eexists d, e, _. split; [reflexivity|]. split; [exact He|].
    split; [exact Hfe|]. split.
    { intros Ht. rewrite Ht in Hn. simpl in Hn.
      destruct (find_by_username store (a_username d)); [discriminate|reflexivity]. }
    split; [reflexivity|]. split; [reflexivity|]. split; [reflexivity|].
    intros e' He'. unfold find_by_email. apply find_app_none.
    + unfold find_by_email in Hfe. rewrite He'. exact Hfe.
    + cbn [email]. rewrite He'. apply String.eqb_refl.
  - intros Hnd. rewrite map_app. simpl. apply NoDup_app; [exact Hnd|repeat constructor; intros []|].
    intros x Hx [Hy|[]]. cbn [email] in Hy. subst x.
    apply in_map_iff in Hx as [y [Hy Hin]].
    pose proof (find_none_all _ _ Hfe y Hin) as Hq. simpl in Hq.
    rewrite Hy, String.eqb_refl in Hq. discriminate.
Qed.

Lemma register_outcome_witness :
  let store := snd (register [] (Some (mk_auth_request (Some "Ann@Example.com") (Some "secret1") None))
                     "hash" 0 0 (Some "0123456789abcdef01234567")) in
  is_not_none (find_by_email store "ann@EXAMPLE.COM") = true.
Proof.
  intros store.
  destruct (proj1 (proj2 (register_outcome []
                            (Some (mk_auth_request (Some "Ann@Example.com") (Some "secret1") None))
                            "hash" 0 0 (Some "0123456789abcdef01234567"))) eq_refl)
    as [d [e [u [Hd [He [_ [_ [_ [_ [_ Hf]]]]]]]]]].
  injection Hd as <-. cbn in He. injection He as <-.
  unfold store. rewrite (Hf "ann@EXAMPLE.COM" eq_refl). reflexivity.
Defined.

Ltac login_refused e He :=
  split; [discriminate|split; [auto|split; [simpl; tauto|]]];
  intros ? ? ? Hb Hg _ _ _ Hns; injection Hb as <-; rewrite He in Hg;
  injection Hg as <-; exfalso; apply (Hns e); reflexivity.

(** Route [login] issues tokens (answer 200) only for the stored user the
    lower-cased e-mail finds, when the body is a JSON object whose e-mail
    and password are strings and that user has a non-empty password hash
    that [bcrypt.checkpw] accepts for the password.  Every other answer is
    400, 401, 415 or 500 and names no user; a truthy e-mail that is no
    string is answered 500. *)
Theorem login_outcome (checkpw : string -> string -> option bool) (store : list user)
  (body : json_body) :
  (fst (login checkpw store body) = 200 ->
   exists fields e pw u h,
     body = Body (JObj fields) /\ jget "email" fields = Some (JStr e)
     /\ jget "password" fields = Some (JStr pw)
     /\ snd (login checkpw store body) = Some u /\ find_by_email store e = Some u
     /\ password u = Some h /\ h <> "" /\ checkpw pw h = Some true)
  /\ (fst (login checkpw store body) <> 200 -> snd (login checkpw store body) = None)
  /\ In (fst (login checkpw store body)) [200; 400; 401; 415; 500]
  /\ (forall fields ev pv,
        body = Body (JObj fields) -> jget "email" fields = Some ev ->
        jget "password" fields = Some pv ->
        jtruthy ev = true -> jtruthy pv = true -> (forall e, ev <> JStr e) ->
        fst (login checkpw store body) = 500).
Proof.
  unfold login.
  destruct body as [| |data];
    [split; [discriminate|split; [auto|split; [simpl; tauto|intros ? ? ? Hb; discriminate Hb]]]..|].
  destruct (jtruthy data) eqn:Ht; cbn [negb].
  2:{ split; [discriminate|split; [auto|split; [simpl; tauto|]]].
      intros fields ev pv Hb Hg. injection Hb as ->.
      destruct fields; [discriminate Hg|discriminate Ht]. }
  destruct data as [| | | | |fields];
    try (split; [discriminate|split; [auto|split; [simpl; tauto|intros ? ? ? Hb; discriminate Hb]]]).
  destruct (jget "email" fields) as [ev|] eqn:He;
    [|split; [discriminate|split; [auto|split; [simpl; tauto|]]];
      intros ? ? ? Hb Hg; injection Hb as <-; congruence].
  destruct (jget "password" fields) as [pv|] eqn:Hp;
    [|split; [discriminate|split; [auto|split; [simpl; tauto|]]];
      intros ? ? ? Hb _ Hq; injection Hb as <-; congruence].
  destruct (negb (jtruthy ev) || negb (jtruthy pv)) eqn:Htt.
  { split; [discriminate|split; [auto|split; [simpl; tauto|]]].
    intros f' ev' pv' Hb Hg Hq T1 T2 _. injection Hb as <-.
    rewrite He in Hg. injection Hg as <-. rewrite Hp in Hq. injection Hq as <-.
    rewrite T1, T2 in Htt. discriminate Htt. }
  destruct ev as [| | |e| |];
    try (split; [discriminate|split; [auto|split; [simpl; tauto|intros; reflexivity]]]).
  destruct (find_by_email store e) as [u|] eqn:Hf; [|login_refused e He].
  unfold verify_password.
  destruct (password u) as [h|] eqn:Hh; [|login_refused e He].
  destruct (String.eqb_spec h "") as [Hz|Hz]; [login_refused e He|].
  destruct pv as [| | |pw| |]; try (login_refused e He).
  destruct (checkpw pw h) as [[|]|] eqn:Hc; try (login_refused e He).
  split; [intros _; exists fields, e, pw, u, h; repeat split; try reflexivity; assumption|].
  split; [intros Hne; exfalso; apply Hne; reflexivity|]. split; [simpl; tauto|].
  intros ? ? ? Hb Hg _ _ _ Hns. injection Hb as <-. rewrite He in Hg.
  injection Hg as <-. exfalso. apply (Hns e). reflexivity.
Qed.

Lemma login_outcome_witness :
  let store := [mk_user "0123456789abcdef01234567" "ann@example.com" (Some "h")
                  None None None [] 0 0] in
  snd (login (fun _ _ => Some false) store
         (Body (JObj [("email", JStr "ann@example.com"); ("password", JStr "pw")]))) = None
  /\ fst (login (fun _ _ => Some false) store
           (Body (JObj [("email", JArr [JStr "ann@example.com"]); ("password", JStr "pw")])))
     = 500.
Proof.
  intros store. split.
  - apply (proj1 (proj2 (login_outcome (fun _ _ => Some false) store
             (Body (JObj [("email", JStr "ann@example.com"); ("password", JStr "pw")]))))).
    vm_compute. discriminate.
  - apply (proj2 (proj2 (proj2 (login_outcome (fun _ _ => Some false) store
             (Body (JObj [("email", JArr [JStr "ann@example.com"]); ("password", JStr "pw")])))))
             [("email", JArr [JStr "ann@example.com"]); ("password", JStr "pw")]
             (JArr [JStr "ann@example.com"]) (JStr "pw")); try reflexivity.
    intros e He. discriminate He.
Defined.

Lemma update_first_by_map {A B} (g : A -> B) (q : A -> bool) (f : A -> A) (l : list A) :
  (forall y, g (f y) = g y) -> map g (update_first_by q f l) = map g l.
Proof.
  intros Hg. induction l as [|y l IH]; [reflexivity|].
  simpl. destruct (q y); simpl; [rewrite Hg; reflexivity|rewrite IH; reflexivity].
Qed.

Lemma update_first_by_In {A} (q : A -> bool) (f : A -> A) (l : list A) (x : A) :
  In x (update_first_by q f l) -> In x l \/ exists y, In y l /\ q y = true /\ x = f y.
Proof.
  induction l as [|y l IH]; simpl; [tauto|].
  destruct (q y) eqn:Hy; simpl.
  - intros [<-|Hx]; [right; exists y; auto|left; right; exact Hx].
  - intros [<-|Hx]; [left; left; reflexivity|].
    destruct (IH Hx) as [H|[z [Hz1 Hz2]]]; [left; right; exact H|right; exists z; auto].
Qed.

Lemma update_first_by_find {A} (q : A -> bool) (f : A -> A) (l : list A) (x : A) :
  find q l = Some x -> In (f x) (update_first_by q f l).
Proof.
  induction l as [|y l IH]; simpl; [discriminate|].
  destruct (q y); [intros H; injection H as ->; left; reflexivity|].
  intros H. right. exact (IH H).
Qed.

(** The parts of a user document that neither profile update nor password
    change may touch. *)
Definition user_key (u : user) : string * string * list history_entry * nat :=
  (u_id u, email u, history u, created_at u).

Lemma set_field_key (u : user) (kv : string * option string) :
  user_key (set_field u kv) = user_key u.
Proof.
  destruct kv as [k v]. unfold set_field.
  destruct (String.eqb k "username"); [reflexivity|].
  destruct (String.eqb k "display_name"); [reflexivity|].
  destruct (String.eqb k "avatar_url"); [reflexivity|].
  destruct (String.eqb k "password"); reflexivity.
Qed.

Lemma fold_set_field_key (kvs : list (string * option string)) (u : user) :
  user_key (fold_left set_field kvs u) = user_key u.
Proof.
  revert u. induction kvs as [|kv kvs IH]; intros u; [reflexivity|].
  simpl. rewrite IH. apply set_field_key.
Qed.

Lemma apply_user_update_key (kvs : list (string * option string)) (now : nat) (u : user) :
  user_key (apply_user_update kvs now u) = user_key u.
Proof. unfold apply_user_update. apply (fold_set_field_key kvs u). Qed.

Lemma user_update_props (store : list user) (user_id : string)
  (kvs : list (string * option string)) (now : nat) :
  map user_key (snd (user_update store user_id kvs now)) = map user_key store
  /\ (forall x, In x (snd (user_update store user_id kvs now)) ->
        In x store \/ object_id user_id = Some (u_id x)).
Proof.
  unfold user_update.
  destruct (object_id user_id) as [oid|] eqn:Ho; [|split; [reflexivity|auto]].
  destruct (find (fun u => String.eqb (u_id u) oid) store); [|split; [reflexivity|auto]].
  cbn [snd]. split.
  - apply update_first_by_map. intros y. apply apply_user_update_key.
  - intros x Hx. apply update_first_by_In in Hx as [Hx|[y [_ [Hq ->]]]]; [left; exact Hx|].
    right. apply String.eqb_eq in Hq.
    pose proof (f_equal (fun k => fst (fst (fst k))) (apply_user_update_key kvs now y)) as Hid.
    cbn [fst user_key] in Hid. rewrite Hid, Hq. reflexivity.
Qed.

Lemma allowed_fold_password (kvs : list (string * option string)) (u : user) :
  Forall (fun kv => mem (fst kv) allowed_fields = true) kvs ->
  password (fold_left set_field kvs u) = password u.
Proof.
  revert u. induction kvs as [|[k v] kvs IH]; intros u Hall; [reflexivity|].
  apply Forall_cons_iff in Hall as [Hk Hall]. simpl. rewrite (IH _ Hall).
  unfold set_field. apply mem_In in Hk. simpl in Hk.
  destruct Hk as [<-|[<-|[<-|[]]]]; reflexivity.
Qed.

(** Route [update_profile] never changes the id, e-mail, password hash or
    history of any user; every user it writes is the caller (the user whose
    id the caller's id parses to), and an answer other than 200 leaves the
    collection unchanged. *)
Theorem update_profile_outcome (store : list user) (user_id : string)
  (data : list (string * option string)) (now : nat) :
  map (fun u => (user_key u, password u)) (snd (update_profile store user_id data now))
  = map (fun u => (user_key u, password u)) store
  /\ (forall x, In x (snd (update_profile store user_id data now)) ->
        In x store \/ object_id user_id = Some (u_id x))
  /\ (fst (update_profile store user_id data now) <> 200 ->
      snd (update_profile store user_id data now) = store).
Proof.
  unfold update_profile.
  set (upd := filter (fun kv => mem (fst kv) allowed_fields) data).
  assert (Hall : Forall (fun kv => mem (fst kv) allowed_fields = true) upd).
  { apply Forall_forall. intros kv Hkv. apply filter_In in Hkv. apply Hkv. }
  destruct (match find (fun kv => String.eqb (fst kv) "username") upd with
            | Some (_, name) => _ | None => false end);
    [split; [reflexivity|split; [auto|reflexivity]]|].
  destruct (user_update_props store user_id upd now) as [Hk Hin].
  assert (Hp : map (fun u => (user_key u, password u)) (snd (user_update store user_id upd now))
               = map (fun u => (user_key u, password u)) store).
  { unfold user_update. destruct (object_id user_id) as [oid|]; [|reflexivity].
    destruct (find (fun u => String.eqb (u_id u) oid) store); [|reflexivity].
    cbn [snd]. apply update_first_by_map. intros y.
    rewrite apply_user_update_key. unfold apply_user_update. cbn [password set_updated_at].
    rewrite (allowed_fold_password _ _ Hall). reflexivity. }
  destruct (user_update store user_id upd now) as [[u'|] s'] eqn:Hu; cbn [fst snd] in *.
  - split; [exact Hp|]. split; [exact Hin|]. intros Hne. exfalso. apply Hne. reflexivity.
  - split; [reflexivity|]. split; [auto|reflexivity].
Qed.

Lemma update_profile_outcome_witness :
  let u := mk_user "0123456789abcdef01234567" "ann@example.com" (Some "h")
             None None None [] 0 0 in
  snd (update_profile [u] "not-an-id" [("display_name", Some "Ann")] 1) = [u].
Proof.
  intros u.
  apply (proj2 (proj2 (update_profile_outcome [u] "not-an-id" [("display_name", Some "Ann")] 1))).
  vm_compute. discriminate.
Defined.

Ltac password_refused := split; [auto|split; [discriminate|reflexivity]].

(** Route [change_password]: the collection changes only with answer 200,
    which needs a JSON object whose current and new passwords are strings,
    a new password of at least 6 characters and a current password
    [bcrypt.checkpw] accepts for the caller; then the caller's document
    holds the new hash and [updated_at] is the time of the update, and no
    other field of any user is written (ids, e-mails, histories, creation
    times, usernames, display names and avatars stay as they were). *)
Theorem change_password_outcome (checkpw : string -> string -> option bool)
  (store : list user) (user_id : string) (body : json_body) (hashed : string) (now : nat) :
  (fst (change_password checkpw store user_id body hashed now) <> 200 ->
   snd (change_password checkpw store user_id body hashed now) = store)
  /\ (fst (change_password checkpw store user_id body hashed now) = 200 ->
      exists fields c n u,
        body = Body (JObj fields)
        /\ jget "current_password" fields = Some (JStr c)
        /\ jget "new_password" fields = Some (JStr n) /\ 6 <= String.length n
        /\ user_find_by_id store user_id = Some u
        /\ verify_password checkpw (Some u) (JStr c) = Some true
        /\ exists u', In u' (snd (change_password checkpw store user_id body hashed now))
                      /\ u_id u' = u_id u /\ password u' = Some hashed
                      /\ updated_at u' = now)
  /\ map (fun u => (user_key u, username u, display_name u, avatar_url u))
         (snd (change_password checkpw store user_id body hashed now))
     = map (fun u => (user_key u, username u, display_name u, avatar_url u)) store.
Proof.
  unfold change_password.
  assert (Hm : map (fun u => (user_key u, username u, display_name u, avatar_url u))
                 (snd (user_update store user_id [("password", Some hashed)] now))
               = map (fun u => (user_key u, username u, display_name u, avatar_url u)) store).
  { unfold user_update. destruct (object_id user_id) as [oid|]; [|reflexivity].
    destruct (find (fun u => String.eqb (u_id u) oid) store); [|reflexivity].
    cbn [snd]. apply update_first_by_map. intros y. reflexivity. }
  destruct body as [| |v]; [password_refused..|].
  destruct (if jtruthy v then v else JObj []) as [| | | | |fields] eqn:Hd;
    try password_refused.
  destruct (jget "current_password" fields) as [cur|] eqn:Hc; [|password_refused].
  destruct (jget "new_password" fields) as [nw|] eqn:Hn; [|password_refused].
  destruct (negb (jtruthy cur) || negb (jtruthy nw)); [password_refused|].
  destruct (py_len nw) as [k|] eqn:Hl; [|password_refused].
  destruct (Nat.ltb_spec k 6) as [Hlt|Hge]; [password_refused|].
  destruct (user_find_by_id store user_id) as [u|] eqn:Hf; [|password_refused].
  destruct (verify_password checkpw (Some u) cur) as [[|]|] eqn:Hv;
    [|password_refused|password_refused].
  destruct nw as [| | |n| |]; try password_refused.
  destruct (user_update store user_id [("password", Some hashed)] now) as [[u'|] s'] eqn:Hu;
    cbn [fst snd] in *; [|password_refused].
  split; [intros Hne; exfalso; apply Hne; reflexivity|]. split; [|exact Hm].
  intros _.
  assert (Hv' : v = JObj fields).
  { destruct (jtruthy v); [exact Hd|injection Hd as <-; discriminate Hc]. }
  subst v.
  destruct cur as [| | |c| |];
    try (unfold verify_password in Hv; destruct (password u) as [h|];
         [destruct (String.eqb h ""); discriminate Hv|discriminate Hv]).
  exists fields, c, n, u.
  split; [reflexivity|]. split; [exact Hc|]. split; [exact Hn|].
  split; [injection Hl as <-; exact Hge|]. split; [reflexivity|]. split; [exact Hv|].
  unfold user_find_by_id in Hf. unfold user_update in Hu.
  destruct (object_id user_id) as [oid|]; [|discriminate Hf].
  rewrite Hf in Hu. injection Hu as _ <-.
  exists (apply_user_update [("password", Some hashed)] now u).
  split; [apply update_first_by_find; exact Hf|].
  split; [reflexivity|]. split; reflexivity.
Qed.

Lemma change_password_outcome_witness :
  let u := mk_user "0123456789abcdef01234567" "ann@example.com" (Some "h")
             None None None [] 0 0 in
  (exists u', In u' (snd (change_password (fun _ _ => Some true) [u] "0123456789abcdef01234567"
                            (Body (JObj [("current_password", JStr "old-pass");
                                         ("new_password", JStr "new-pass")]))
                            "new-hash" 5))
              /\ password u' = Some "new-hash" /\ updated_at u' = 5)
  /\ snd (change_password (fun _ _ => Some true) [u] "0123456789abcdef01234567"
          (Body (JObj [("current_password", JStr "old-pass");
                       ("new_password", JArr [JNull; JNull; JNull; JNull; JNull; JNull])]))
          "new-hash" 5) = [u].
Proof.
  intros u. split.
  - destruct (proj1 (proj2 (change_password_outcome (fun _ _ => Some true) [u]
                   "0123456789abcdef01234567"
                   (Body (JObj [("current_password", JStr "old-pass");
                                ("new_password", JStr "new-pass")]))
                   "new-hash" 5)) ltac:(vm_compute; reflexivity))
      as [fields [c [n [u0 [_ [_ [_ [_ [_ [_ [u' [Hin [_ [Hp Ht]]]]]]]]]]]]]].
    exists u'. split; [exact Hin|]. split; [exact Hp|exact Ht].
  - apply (proj1 (change_password_outcome (fun _ _ => Some true) [u]
             "0123456789abcdef01234567"
             (Body (JObj [("current_password", JStr "old-pass");
                          ("new_password", JArr [JNull; JNull; JNull; JNull; JNull; JNull])]))
             "new-hash" 5)).
    vm_compute. discriminate.
Defined.

